(** * k1max-ws-bridge: the WebSocket-to-MQTT bridge of [app.py]

    A shallow embedding of the bridging pipeline of [app.py] (value
    transformer, field extractor, discovery/state publisher and the
    reconnecting supervisor loop [Bridge.ws_loop]) together with the
    properties its specification states about it.

    Python values are a tagged union; Python floats are IEEE-754 binary64
    numbers, given by [spec_float] with precision 53 and maximal exponent
    1024; Python [dict]s are insertion-ordered association lists; raised
    exceptions are an explicit result type; strings are the UTF-8 bytes of
    Python's text.  The capabilities the program takes from its libraries
    (JSON codec, JSON-path engine, reading and printing of floats) are the
    fields of the class [Runtime].

    [Bridge.ws_loop] is a machine that executes one statement of the loop
    at a time, on a finite series of connection attempts that stands for
    what the WebSocket peer does.  Frames are text frames.  A frame on
    which [json.loads] raises anything but [JSONDecodeError] is the last
    event of its session: no handler of the loop catches the exception,
    and [ws_loop] ends.  The other calls that the loop does not guard (a
    path expression that does not parse, a publish that raises) are
    outside the model. *)

From Stdlib Require Import ZArith List String Ascii Bool Lia.
From Stdlib Require Import Decimal DecimalString DecimalPos DecimalZ.
From Stdlib Require Import SpecFloat.
Import ListNotations.

#[local] Open Scope string_scope.
#[local] Open Scope Z_scope.

(** ** Python values *)

(** binary64 floats *)
Definition float := spec_float.

Definition prec : Z := 53.
Definition emax : Z := 1024.

(** [float(n)] for an integer [n], before the overflow test: the nearest
    binary64 number, ties to even; an infinity when [n] is out of range. *)
Definition Z2SF (n : Z) : float := binary_normalize prec emax n 0 false.

Definition f_zero : float := S754_zero false.                    (* 0.0 *)
Definition f_one : float := Eval vm_compute in Z2SF 1.          (* 1.0 *)
Definition f_hundred : float := Eval vm_compute in Z2SF 100.    (* 100.0 *)

Definition fmul (x y : float) : float := SFmul prec emax x y.
Definition fleb (x y : float) : bool := SFleb x y.

(** [0.0 <= v <= 1.0] *)
Definition in_unit (v : float) : bool := fleb f_zero v && fleb v f_one.

(** [x / y] of two floats, [y] not zero *)
Definition fdiv (x y : float) : float := SFdiv prec emax x y.

(** The integer nearest to [n / d], ties to the even one; [0 < d]. *)
Definition div_half_even (n d : Z) : Z :=
  let q := n / d in
  match 2 * (n mod d) ?= d with
  | Lt => q
  | Eq => if Z.even q then q else q + 1
  | Gt => q + 1
  end.

(** [round(x, ndigits)] of a float: the exact value of [x] is rounded to
    the nearest multiple of [10 ** -ndigits], ties to the even multiple,
    and the result is the binary64 number nearest to that decimal; a NaN,
    an infinity and a zero round to themselves, and the sign is kept.
    With [ndigits >= 0], as in the bridge, the result is finite. *)
Definition py_round (x : float) (ndigits : Z) : float :=
  match x with
  | S754_finite s m e =>
      if 0 <=? ndigits then
        let p := 10 ^ ndigits in
        let n := if 0 <=? e then Zpos m * 2 ^ e * p
                 else div_half_even (Zpos m * p) (2 ^ (- e)) in
        match n with
        | Zpos n' =>
            SFdiv prec emax (S754_finite s n' 0)
              (S754_finite false (Z.to_pos p) 0)
        | _ => S754_zero s
        end
      else
        let p := 10 ^ (- ndigits) in
        let n := if 0 <=? e then div_half_even (Zpos m * 2 ^ e) p
                 else div_half_even (Zpos m) (2 ^ (- e) * p) in
        binary_normalize prec emax (cond_Zopp s (n * p)) 0 s
  | _ => x
  end.

Definition float_eqb (x y : float) : bool :=
  match x, y with
  | S754_zero s, S754_zero s' => Bool.eqb s s'
  | S754_infinity s, S754_infinity s' => Bool.eqb s s'
  | S754_nan, S754_nan => true
  | S754_finite s m e, S754_finite s' m' e' =>
      Bool.eqb s s' && Pos.eqb m m' && Z.eqb e e'
  | _, _ => false
  end.

(** What [json.loads] produces and what [transform_value] may return. *)
#[local] Set Warnings "-register-all".
Inductive pyval : Type :=
| PNone
| PBool (b : bool)
| PInt (n : Z)
| PFloat (f : float)
| PStr (s : string)
| PList (l : list pyval)
| PDict (d : list (string * pyval)).

(** ** Exceptions *)

Inductive exn : Type := ValueError | TypeError | OverflowError.

Inductive result (A : Type) : Type :=
| Ok (a : A)
| Raise (e : exn).
Arguments Ok {A} a.
Arguments Raise {A} e.

Definition bind {A B : Type} (r : result A) (k : A -> result B) : result B :=
  match r with
  | Ok a => k a
  | Raise e => Raise e
  end.

Notation "x <- r ;; k" := (bind r (fun x => k))
  (at level 61, r at next level, right associativity).

(** [try: body  except Exception: return fallback] *)
Definition try_except {A : Type} (body : result A) (fallback : A) : A :=
  match body with
  | Ok a => a
  | Raise _ => fallback
  end.

(** ** Dictionaries: insertion-ordered, assignment to a present key keeps
    its position *)

Definition dict (V : Type) : Type := list (string * V).

Fixpoint dict_get {V : Type} (d : dict V) (k : string) : option V :=
  match d with
  | [] => None
  | (k', v) :: d' => if String.eqb k' k then Some v else dict_get d' k
  end.

Fixpoint dict_set {V : Type} (d : dict V) (k : string) (v : V) : dict V :=
  match d with
  | [] => [(k, v)]
  | (k', v') :: d' =>
      if String.eqb k' k then (k', v) :: d' else (k', v') :: dict_set d' k v
  end.

Definition dict_keys {V : Type} (d : dict V) : list string := map fst d.

(** ** Integer formatting *)

(** [str(n)] of an integer *)
Definition str_int (n : Z) : string := NilEmpty.string_of_int (Z.to_int n).

(** [f"{n:02d}"]: zero padding to a minimal width of two characters, the
    sign being one of them. *)
Definition fmt_02d (n : Z) : string :=
  if n <? 0 then str_int n
  else
    let d := str_int n in
    if (String.length d <? 2)%nat then "0" ++ d else d.

(** [int(f)] of a float: truncation toward zero; [ValueError] on a NaN,
    [OverflowError] on an infinity. *)
Definition int_of_float (f : float) : result Z :=
  match f with
  | S754_nan => Raise ValueError
  | S754_infinity _ => Raise OverflowError
  | S754_zero _ => Ok 0
  | S754_finite s m e => Ok (cond_Zopp s (Z.shiftl (Zpos m) e))
  end.

(** [float(n)] of an integer: [OverflowError] when out of range *)
Definition float_of_int (n : Z) : result float :=
  match Z2SF n with
  | S754_infinity _ => Raise OverflowError
  | f => Ok f
  end.

(** ** Floats in decimal *)

(** The sign of [a * 10^q - b * 2^f]. *)
Definition compare_scaled (a q b f : Z) : comparison :=
  (a * 10 ^ Z.max q 0 * 2 ^ Z.max (- f) 0
   ?= b * 2 ^ Z.max f 0 * 10 ^ Z.max (- q) 0).

(** The largest [p] with [10^p <= m * 2^e], searched upwards from [p]. *)
Fixpoint log10_from (fuel : nat) (m e p : Z) : Z :=
  match fuel with
  | O => p
  | S fuel' =>
      match compare_scaled 1 (p + 1) m e with
      | Gt => p
      | _ => log10_from fuel' m e (p + 1)
      end
  end.

(** The largest [p] with [10^p <= m * 2^e]: a lower estimate from the
    binary logarithm, then the search. *)
Definition floor_log10 (m e : Z) : Z :=
  let b := Z.log2 m + e in
  let p0 := (b * 30102) / 100000 - 1 in
  log10_from 4 m e p0.

(** [d] without its trailing zeros, at most [n] of them. *)
Fixpoint strip_zeros (n : nat) (d : Z) : Z :=
  match n with
  | O => d
  | S n' =>
      if (d mod 10 =? 0) && (0 <? d) then strip_zeros n' (d / 10) else d
  end.

(** The shortest decimal that reads back as the float [m * 2^e], with [n]
    digits or more, and the nearest to it of that length: its digits as a
    number without trailing zeros, and the power of ten of its first
    digit.  A decimal reads back as the float when it lies between the
    midpoints to the two neighbours of the float, the midpoints included
    when [m] is even. *)
Fixpoint shortest_from (fuel : nat) (n : Z) (m e p : Z) : Z * Z :=
  let q := p - n + 1 in
  let num := m * 2 ^ Z.max e 0 * 10 ^ Z.max (- q) 0 in
  let den := 2 ^ Z.max (- e) 0 * 10 ^ Z.max q 0 in
  let d_lo := num / den in
  let r := num mod den in
  let d_hi := d_lo + 1 in
  match fuel with
  | O => (d_lo, p)
  | S fuel' =>
      let boundary := (m =? 2 ^ 52) && (-1074 <? e) in
      let lo := if boundary then 4 * m - 1 else 4 * m - 2 in
      let hi := 4 * m + 2 in
      let even := Z.even m in
      let inside (d : Z) :=
        match compare_scaled d q lo (e - 2),
              compare_scaled d q hi (e - 2) with
        | Gt, Lt => true
        | Eq, Lt => even
        | Gt, Eq => even
        | _, _ => false
        end in
      let pick (d : Z) :=
        if d =? 10 ^ n then (1, p + 1) else (strip_zeros 20 d, p) in
      match inside d_lo, inside d_hi with
      | true, true =>
          match 2 * r ?= den with
          | Lt => pick d_lo
          | Gt => pick d_hi
          | Eq => if Z.even d_lo then pick d_lo else pick d_hi
          end
      | true, false => pick d_lo
      | false, true => pick d_hi
      | false, false => shortest_from fuel' (n + 1) m e p
      end
  end.

Fixpoint zeros (n : nat) : string :=
  match n with
  | O => EmptyString
  | S n' => String "0" (zeros n')
  end.

(** [repr(x)] and [str(x)] of a float: the shortest decimal that reads
    back as [x], with an exponent when the decimal point would stand more
    than 16 places after the first digit or more than 4 places before
    it, and with [.0] after a whole number. *)
Definition float_repr (x : float) : string :=
  match x with
  | S754_nan => "nan"
  | S754_infinity s => if s then "-inf" else "inf"
  | S754_zero s => if s then "-0.0" else "0.0"
  | S754_finite s m e =>
      let (d, p) :=
        shortest_from 17 1 (Zpos m) e (floor_log10 (Zpos m) e) in
      let ds := str_int d in
      let len := String.length ds in
      let decpt := p + 1 in
      (if s then "-" else "")
      ++ (if (decpt <=? -4) || (16 <? decpt) then
            let ex := decpt - 1 in
            let digits := str_int (Z.abs ex) in
            String.substring 0 1 ds
              ++ (if (1 <? len)%nat
                  then "." ++ String.substring 1 (len - 1) ds
                  else "")
              ++ "e" ++ (if ex <? 0 then "-" else "+")
              ++ (if (String.length digits <? 2)%nat
                  then "0" ++ digits
                  else digits)
          else if decpt <=? 0 then
            "0." ++ zeros (Z.to_nat (- decpt)) ++ ds
          else if Z.of_nat len <=? decpt then
            ds ++ zeros (Z.to_nat (decpt - Z.of_nat len)) ++ ".0"
          else
            String.substring 0 (Z.to_nat decpt) ds ++ "."
              ++ String.substring (Z.to_nat decpt) (len - Z.to_nat decpt) ds)
  end.

(** Reading a float: [float(s)] of a string of ASCII characters, which is
    white space, a sign, then [inf], [infinity] or [nan] in any case, or
    digits with a point and an exponent; an underscore may separate two
    digits.  The number is the binary64 number nearest to the decimal. *)

Definition is_digit (c : ascii) : bool :=
  let n := Z.of_nat (nat_of_ascii c) in (48 <=? n) && (n <=? 57).

(** The white space of ASCII, which [float] ignores around a number. *)
Definition is_space (c : ascii) : bool :=
  let n := Z.of_nat (nat_of_ascii c) in
  ((9 <=? n) && (n <=? 13)) || (n =? 32).

Definition to_lower (c : ascii) : ascii :=
  let n := nat_of_ascii c in
  if ((65 <=? n) && (n <=? 90))%nat then ascii_of_nat (n + 32) else c.

Fixpoint lstrip (l : list ascii) : list ascii :=
  match l with
  | c :: l' => if is_space c then lstrip l' else l
  | [] => []
  end.

Definition strip (l : list ascii) : list ascii :=
  List.rev (lstrip (List.rev (lstrip l))).

(** Underscores are dropped where they separate two digits; [None] where
    one stands elsewhere.  [prev] is the character before. *)
Fixpoint drop_underscores (prev : ascii) (l : list ascii)
  : option (list ascii) :=
  match l with
  | [] => if Ascii.eqb prev "_" then None else Some []
  | c :: l' =>
      if Ascii.eqb c "_" then
        if is_digit prev then drop_underscores c l' else None
      else if Ascii.eqb prev "_" && negb (is_digit c) then None
      else option_map (cons c) (drop_underscores c l')
  end.

(** The digits at the head of a list: their value, their number, and what
    follows them. *)
Fixpoint take_digits (acc : Z) (n : Z) (l : list ascii)
  : Z * Z * list ascii :=
  match l with
  | c :: l' =>
      if is_digit c
      then take_digits (10 * acc + (Z.of_nat (nat_of_ascii c) - 48))
             (n + 1) l'
      else (acc, n, l)
  | [] => (acc, n, [])
  end.

(** The binary64 number nearest to [d * 10^e10], with the sign [s]; the
    powers of ten that are out of range anyway are not computed. *)
Definition decimal_to_float (s : bool) (d e10 : Z) : float :=
  match d with
  | Zpos p =>
      let size := Z.log2 d * 30103 / 100000 + e10 in
      if 400 <? size then S754_infinity s
      else if size <? -400 then S754_zero s
      else
        let x := if 0 <=? e10
                 then binary_normalize prec emax (d * 10 ^ e10) 0 false
                 else SFdiv prec emax (S754_finite false p 0)
                        (S754_finite false (Z.to_pos (10 ^ (- e10))) 0) in
        if s then SFopp x else x
  | _ => S754_zero s
  end.

(** The exponent part of a number: nothing, or [e], a sign and digits. *)
Definition parse_exponent (l : list ascii) : option Z :=
  match l with
  | [] => Some 0
  | c :: l' =>
      if Ascii.eqb (to_lower c) "e" then
        let (neg, l'') :=
          match l' with
          | "-"%char :: r => (true, r)
          | "+"%char :: r => (false, r)
          | _ => (false, l')
          end in
        match take_digits 0 0 l'' with
        | (v, n, []) =>
            if 0 <? n then Some (if neg then - v else v) else None
        | _ => None
        end
      else None
  end.

(** [float(s)] of a string of ASCII characters *)
Definition float_of_ascii (s : string) : result float :=
  match drop_underscores "000"%char (strip (list_ascii_of_string s)) with
  | None => Raise ValueError
  | Some l =>
      let (neg, body) :=
        match l with
        | "-"%char :: r => (true, r)
        | "+"%char :: r => (false, r)
        | _ => (false, l)
        end in
      let word := string_of_list_ascii (map to_lower body) in
      if String.eqb word "inf" || String.eqb word "infinity"
      then Ok (S754_infinity neg)
      else if String.eqb word "nan" then Ok S754_nan
      else
        match take_digits 0 0 body with
        | (i, ni, rest) =>
            let '(f, nf, rest') :=
              match rest with
              | "."%char :: r => take_digits i 0 r
              | _ => (i, 0, rest)
              end in
            if (ni + nf =? 0) then Raise ValueError
            else
              match parse_exponent rest' with
              | Some e => Ok (decimal_to_float neg f (e - nf))
              | None => Raise ValueError
              end
        end
  end.

(** ** Configuration ([/data/options.json]) *)

(** One entry of [cfg["mappings"]]; the keys read with [.get] are optional. *)
Record mapping : Type := {
  name : string;
  unique_id : string;
  jsonpath : string;
  transform : option string;
  unit : option string;
  icon : option string;
  device_class : option string;
  state_class : option string
}.

Record config : Type := {
  ws_url : string;
  base_topic : string;
  device_id : string;
  device_name : string;
  discovery_prefix : string;
  mappings : list mapping;
  log_raw_frames : bool;             (* [cfg["debug"]["log_raw_frames"]] *)
  raw_frames_limit : Z               (* [cfg["debug"]["raw_frames_limit"]] *)
}.

(** Truth value of [sensor.get(key)]: a missing key gives [None], and an
    empty string is false as well. *)
Definition truthy (o : option string) : bool :=
  match o with
  | Some s => negb (String.eqb s "")
  | None => false
  end.

(** [sensor.get(key) or default] *)
Definition get_or (o : option string) (default : string) : string :=
  match o with
  | Some s => if truthy o then s else default
  | None => default
  end.

(** [if sensor.get(key): disc[out_key] = sensor[key]] *)
Definition set_if (disc : dict pyval) (out_key : string) (o : option string)
  : dict pyval :=
  match o with
  | Some s => if truthy o then dict_set disc out_key (PStr s) else disc
  | None => disc
  end.

(** ** Effects of the bridge on the outside world *)

Record mqtt_msg : Type := {
  topic : string;
  payload : string;
  qos : Z;
  retain : bool
}.

Inductive effect : Type :=
| Print (line : string)          (* a line on standard output *)
| Publish (m : mqtt_msg)         (* [mqttc.publish] *)
| Sleep (seconds : Z).           (* [await asyncio.sleep] *)

Definition log (msg : string) : effect := Print ("[k1max-ws-bridge] " ++ msg).

(** [to_discovery] *)
Definition to_discovery (sensor : mapping) (cfg : config) : dict pyval :=
  let disc :=
    [ ("name", PStr (name sensor));
      ("state_topic",
        PStr (base_topic cfg ++ "/state/" ++ unique_id sensor));
      ("unique_id", PStr (unique_id sensor));
      ("device",
        PDict [ ("identifiers", PList [PStr (device_id cfg)]);
                ("manufacturer", PStr "Creality");
                ("name", PStr (device_name cfg));
                ("model", PStr "K1/K1 Max (WS Bridge)") ]);
      ("icon", PStr (get_or (icon sensor) "mdi:printer-3d")) ] in
  let disc := set_if disc "unit_of_measurement" (unit sensor) in
  let disc := set_if disc "device_class" (device_class sensor) in
  let disc := set_if disc "state_class" (state_class sensor) in
  disc.

(** ** What the environment does to the bridge *)

(** How a streaming session ends. *)
Inductive ending : Type :=
| Failed (err : string)   (* a caught error is raised; [err] is its [repr] *)
| Closed                  (* the frame iterator ends without an error *)
| Pending                 (* nothing more is known: the loop awaits *)
| Raising (msg : string) (err : string).
                          (* the frame [msg] arrives, on which [json.loads]
                             raises [err], which is no [JSONDecodeError] *)

(** One [websockets.connect]: it raises a caught error, or it opens a
    session that delivers frames and then ends.  The [frames] are those on
    which [json.loads] returns or raises [JSONDecodeError]; a frame on
    which it raises another exception ([RecursionError] on deeply nested
    brackets, say) is the ending [Raising] of its session. *)
Inductive attempt : Type :=
| Refused (err : string)
| Opened (frames : list string) (e : ending).

(** ** Program points of [Bridge.ws_loop] *)

Inductive pc : Type :=
| PTop                              (* log "Connecting to WebSocket" *)
| PConnect                          (* [websockets.connect] *)
| PConnected                        (* log "WebSocket connected." *)
| PDiscovery                        (* [self.publish_discovery()] *)
| PReset                            (* [backoff = 2] after a connect *)
| PRecv                             (* [async for msg in ws] *)
| PLoads (msg : string)             (* [json.loads(msg)] *)
| PLoadsRaises (msg err : string)   (* [json.loads(msg)], raising [err] *)
| PNonJson (msg : string)           (* [if self.raw_left > 0: log(...)] *)
| PNonJsonDec                       (* [self.raw_left -= 1]; [continue] *)
| PJson (data : pyval)              (* [if self.raw_left > 0: log(...)] *)
| PJsonDec (data : pyval)           (* [self.raw_left -= 1] *)
| PExtract (data : pyval)           (* [self.extract_values(data)] *)
| PPublish (items : dict pyval)     (* [for uid, val in values.items()] *)
| PExcept (err : string)            (* log "WS error" *)
| PSleep                            (* [await asyncio.sleep(backoff)] *)
| PDouble                           (* [backoff = min(backoff * 2, 60)] *)
| PEnded (err : string).            (* [err] has left [ws_loop] *)

(** The connection states of the supervisor, and the state of a loop that
    an exception has ended. *)
Inductive phase : Type := Disconnected | Connecting | Connected | Ended.

Definition phase_of (p : pc) : phase :=
  match p with
  | PTop | PConnect => Connecting
  | PExcept _ | PSleep | PDouble => Disconnected
  | PEnded _ => Ended
  | _ => Connected
  end.

(** The supervisor: its program point, the local [backoff], the field
    [self.raw_left], what is left of the open session and the connection
    attempts to come. *)
Record conf : Type := {
  at_pc : pc;
  backoff : Z;
  raw_left : Z;
  frames_left : list string;
  session_end : ending;
  env : list attempt
}.

Definition goto (p : pc) (c : conf) : conf :=
  {| at_pc := p; backoff := backoff c; raw_left := raw_left c;
     frames_left := frames_left c; session_end := session_end c;
     env := env c |}.

Definition set_backoff (b : Z) (c : conf) : conf :=
  {| at_pc := at_pc c; backoff := b; raw_left := raw_left c;
     frames_left := frames_left c; session_end := session_end c;
     env := env c |}.

Definition set_session (fr : list string) (e : ending) (w : list attempt)
  (c : conf) : conf :=
  {| at_pc := at_pc c; backoff := backoff c; raw_left := raw_left c;
     frames_left := fr; session_end := e; env := w |}.

Definition set_raw_left (r : Z) (c : conf) : conf :=
  {| at_pc := at_pc c; backoff := backoff c; raw_left := r;
     frames_left := frames_left c; session_end := session_end c;
     env := env c |}.

(** [Bridge.__init__] ([self.raw_left]) followed by the first line of
    [ws_loop] ([backoff = 2]). *)
Definition init (cfg : config) (world : list attempt) : conf :=
  {| at_pc := PTop; backoff := 2;
     raw_left := if log_raw_frames cfg then raw_frames_limit cfg else 0;
     frames_left := []; session_end := Pending; env := world |}.

(** A byte that continues a character of UTF-8 text: [10xxxxxx]. *)
Definition is_continuation (c : ascii) : bool :=
  match c with
  | Ascii _ _ _ _ _ _ b6 b7 => b7 && negb b6
  end.

(** The first [n] characters of UTF-8 text: a character is its first byte
    and the continuation bytes that follow it. *)
Fixpoint take_chars (n : nat) (s : string) : string :=
  match s with
  | EmptyString => EmptyString
  | String c s' =>
      if is_continuation c then String c (take_chars n s')
      else
        match n with
        | O => EmptyString
        | S n' => String c (take_chars n' s')
        end
  end.

(** The first 500 characters, [s[:500]]. *)
Definition first500 (s : string) : string := take_chars 500 s.

(** ** Library capabilities

    What the bridge takes from the Python runtime and from its libraries
    ([json], [jsonpath_ng]) without defining it. *)
Class Runtime : Type := {
  (** [float(s)] of a string; [Raise ValueError] when [s] is no number;
      on ASCII characters it is [float_of_ascii] *)
  float_of_str : string -> result float;
  (** [str(x)] of a list or a dict *)
  py_repr : pyval -> string;
  (** [json.loads] of a text frame on which it returns or raises
      [json.JSONDecodeError], the failure the loop provides for, which is
      [None] here; the frames on which it raises anything else are the
      endings [Raising] of their sessions *)
  json_loads : string -> option pyval;
  (** [json.dumps(x, separators=(item, key))] *)
  json_dumps : string * string -> pyval -> string;
  (** [[m.value for m in jp(path).find(msg)]], in the engine's order *)
  jsonpath_find : string -> pyval -> list pyval
}.

Section Bridge.

Context {rt : Runtime}.

(** *** Value transformer *)

(** [float(x)] *)
Definition py_float (x : pyval) : result float :=
  match x with
  | PNone => Raise TypeError
  | PBool b => Ok (if b then f_one else f_zero)
  | PInt n => float_of_int n
  | PFloat f => Ok f
  | PStr s => float_of_str s
  | PList _ | PDict _ => Raise TypeError
  end.

(** [f"{h:02d}:{m:02d}:{sec:02d}"] for [s] seconds *)
Definition hms (s : Z) : string :=
  let h := s / 3600 in
  let m := (s mod 3600) / 60 in
  let sec := s mod 60 in
  fmt_02d h ++ ":" ++ fmt_02d m ++ ":" ++ fmt_02d sec.

(** [transform_value] *)
Definition transform_value (x : pyval) (mode : string) : pyval :=
  match x with
  | PNone => PNone
  | _ =>
      try_except
        (if String.eqb mode "percent_0_1_to_0_100" then
           val <- py_float x ;;
           Ok (PFloat (if in_unit val
                       then py_round (fmul val f_hundred) 2
                       else py_round val 2))
         else if String.eqb mode "seconds_to_hms" then
           f <- py_float x ;;
           s <- int_of_float f ;;
           Ok (PStr (hms s))
         else Ok x)
        x
  end.

(** *** Field extractor *)

(** [s.get("transform", "none")] *)
Definition mode_of (s : mapping) : string :=
  match transform s with
  | Some m => m
  | None => "none"
  end.

(** [matches[0] if matches else None] *)
Definition first_match (matches : list pyval) : pyval :=
  match matches with
  | [] => PNone
  | v :: _ => v
  end.

(** The value of one round of the loop of [extract_values]. *)
Definition extract_value (msg : pyval) (s : mapping) : pyval :=
  let value := first_match (jsonpath_find (jsonpath s) msg) in
  transform_value value (mode_of s).

(** One round of the loop of [extract_values]. *)
Definition extract_one (msg : pyval) (out : dict pyval) (s : mapping)
  : dict pyval :=
  dict_set out (unique_id s) (extract_value msg s).

(** [Bridge.extract_values] *)
Definition extract_values (cfg : config) (msg : pyval) : dict pyval :=
  fold_left (extract_one msg) (mappings cfg) [].

(** *** Publisher *)

(** [str(value)] *)
Definition py_str (v : pyval) : string :=
  match v with
  | PNone => "None"
  | PBool true => "True"
  | PBool false => "False"
  | PInt n => str_int n
  | PStr s => s
  | PFloat f => float_repr f
  | PList _ | PDict _ => py_repr v
  end.

Definition discovery_topic (cfg : config) (s : mapping) : string :=
  discovery_prefix cfg ++ "/sensor/" ++ device_id cfg ++ "/"
    ++ unique_id s ++ "/config".

(** One round of the loop of [publish_discovery]. *)
Definition publish_discovery_one (cfg : config) (s : mapping)
  : list effect :=
  let disc := to_discovery s cfg in
  let topic := discovery_topic cfg s in
  let payload := json_dumps (",", ":") (PDict disc) in
  [ Publish {| topic := topic; payload := payload; qos := 1;
               retain := true |};
    log ("Published discovery: " ++ topic) ].

(** [Bridge.publish_discovery] *)
Definition publish_discovery (cfg : config) : list effect :=
  flat_map (publish_discovery_one cfg) (mappings cfg).

(** [Bridge.publish_state] *)
Definition publish_state (cfg : config) (uid : string) (value : pyval)
  : effect :=
  let topic := base_topic cfg ++ "/state/" ++ uid in
  let payload := match value with PNone => "" | _ => py_str value end in
  Publish {| topic := topic; payload := payload; qos := 0;
             retain := true |}.

(** *** Connection supervisor *)

(** One statement of [Bridge.ws_loop]: the effects it has and the
    configuration it leaves; [None] where the loop awaits an event the
    environment has not delivered, and where an exception has ended it. *)
Definition step (cfg : config) (c : conf) : option (list effect * conf) :=
  match at_pc c with
  | PTop =>
      Some ([log ("Connecting to WebSocket: " ++ ws_url cfg)],
            goto PConnect c)
  | PConnect =>
      match env c with
      | [] => None
      | Refused err :: w =>
          Some ([], goto (PExcept err) (set_session [] Pending w c))
      | Opened fr e :: w =>
          Some ([], goto PConnected (set_session fr e w c))
      end
  | PConnected => Some ([log "WebSocket connected."], goto PDiscovery c)
  | PDiscovery => Some (publish_discovery cfg, goto PReset c)
  | PReset => Some ([], goto PRecv (set_backoff 2 c))
  | PRecv =>
      match frames_left c with
      | msg :: fr =>
          Some ([], goto (PLoads msg)
                      (set_session fr (session_end c) (env c) c))
      | [] =>
          match session_end c with
          | Failed err => Some ([], goto (PExcept err) c)
          | Closed => Some ([], goto PTop c)
          | Pending => None
          | Raising msg err => Some ([], goto (PLoadsRaises msg err) c)
          end
      end
  | PLoads msg =>
      match json_loads msg with
      | Some data => Some ([], goto (PJson data) c)
      | None => Some ([], goto (PNonJson msg) c)
      end
  | PLoadsRaises msg err =>
      (* neither [except json.JSONDecodeError] nor the handler of the
         connection errors catches [err] *)
      Some ([], goto (PEnded err) c)
  | PNonJson msg =>
      if 0 <? raw_left c
      then Some ([log ("RAW(nonjson) = " ++ first500 msg)],
                 goto PNonJsonDec c)
      else Some ([], goto PRecv c)
  | PNonJsonDec => Some ([], goto PRecv (set_raw_left (raw_left c - 1) c))
  | PJson data =>
      if 0 <? raw_left c
      then Some ([log ("RAW(json) = "
                         ++ first500 (json_dumps (", ", ": ") data))],
                 goto (PJsonDec data) c)
      else Some ([], goto (PExtract data) c)
  | PJsonDec data =>
      Some ([], goto (PExtract data) (set_raw_left (raw_left c - 1) c))
  | PExtract data => Some ([], goto (PPublish (extract_values cfg data)) c)
  | PPublish [] => Some ([], goto PRecv c)
  | PPublish ((uid, val) :: items) =>
      Some ([publish_state cfg uid val], goto (PPublish items) c)
  | PExcept err =>
      Some ([log ("WS error: " ++ err ++ " â€” retrying in "
                    ++ str_int (backoff c) ++ "s")],
            goto PSleep c)
  | PSleep => Some ([Sleep (backoff c)], goto PDouble c)
  | PDouble => Some ([], goto PTop (set_backoff (Z.min (backoff c * 2) 60) c))
  | PEnded _ => None
  end.

(** [Bridge.ws_loop], at most [k] statements of it from [c]: the effects
    in order and the configuration reached; it stops early where the loop
    awaits or has ended. *)
Fixpoint ws_loop (cfg : config) (k : nat) (c : conf) : list effect * conf :=
  match k with
  | O => ([], c)
  | S k' =>
      match step cfg c with
      | None => ([], c)
      | Some (es, c') =>
          let (es', c'') := ws_loop cfg k' c' in ((es ++ es')%list, c'')
      end
  end.

End Bridge.

(** The durations of the sleeps of a trace, in order. *)
Fixpoint sleeps (t : list effect) : list Z :=
  match t with
  | [] => []
  | Sleep n :: t' => n :: sleeps t'
  | _ :: t' => sleeps t'
  end.

(** The messages published in a trace, in order. *)
Fixpoint published (t : list effect) : list mqtt_msg :=
  match t with
  | [] => []
  | Publish m :: t' => m :: published t'
  | _ :: t' => published t'
  end.

(** The lines printed in a trace, in order. *)
Fixpoint printed (t : list effect) : list string :=
  match t with
  | [] => []
  | Print l :: t' => l :: printed t'
  | _ :: t' => printed t'
  end.

(** ** The specification's side *)

(** The backoff policy in the specification's words: the sleep after [j]
    earlier consecutive failures starts at 2, doubles with every failure
    and is capped at 60. *)
Definition backoff_seq (j : nat) : Z := Z.min (2 * 2 ^ Z.of_nat j) 60.

(** The sleeps the policy prescribes for a series of connection attempts,
    [j] consecutive failures having been seen: a failure sleeps
    [backoff_seq j]; a successful connect resets the count, so that the
    failure ending its session sleeps the floor; there is no sleep once
    the loop awaits or has ended. *)
Fixpoint expected_sleeps (j : nat) (world : list attempt) : list Z :=
  match world with
  | [] => []
  | Refused _ :: w => backoff_seq j :: expected_sleeps (S j) w
  | Opened _ (Failed _) :: w => 2 :: expected_sleeps 1 w
  | Opened _ Closed :: w => expected_sleeps 0 w
  | Opened _ Pending :: _ => []
  | Opened _ (Raising _ _) :: _ => []
  end.

(** Reading [HH:MM:SS] back. *)

(** The characters before the first colon, and what follows that colon. *)
Fixpoint take_field (s : string) : string * option string :=
  match s with
  | EmptyString => (EmptyString, None)
  | String c s' =>
      if Ascii.eqb c ":" then (EmptyString, Some s')
      else let (f, r) := take_field s' in (String c f, r)
  end.

(** The number a string of decimal digits denotes; [None] when a
    character is no digit. *)
Definition digits_value (s : string) : option Z :=
  option_map Z.of_uint (NilEmpty.uint_of_string s).

(** Three colon-separated fields of decimal digits, at least two for the
    hours and exactly two for the minutes and for the seconds. *)
Definition parse_hms (s : string) : option (Z * Z * Z) :=
  match take_field s with
  | (hh, Some s1) =>
      match take_field s1 with
      | (mm, Some s2) =>
          match take_field s2 with
          | (ss, None) =>
              if ((2 <=? String.length hh) && (String.length mm =? 2)
                  && (String.length ss =? 2))%nat
              then
                match digits_value hh, digits_value mm, digits_value ss with
                | Some h, Some m, Some sec => Some (h, m, sec)
                | _, _, _ => None
                end
              else None
          | _ => None
          end
      | _ => None
      end
  | _ => None
  end.

(** The width of the hours field of a string that [parse_hms] accepts. *)
Definition hours_width (s : string) : nat := String.length (fst (take_field s)).

(** A value that is the string [HH:MM:SS] of [s] seconds. *)
Definition renders_as_hms (v : pyval) (s : Z) : Prop :=
  exists (out : string) (H M S : Z),
    v = PStr out /\ parse_hms out = Some (H, M, S)
    /\ 3600 * H + 60 * M + S = s /\ 0 <= M < 60 /\ 0 <= S < 60.

(** ** A small runtime, to evaluate the model on examples *)

Definition demo_float_of_str (s : string) : result float := float_of_ascii s.

Definition demo_json_loads (s : string) : option pyval :=
  if String.eqb s "null" then Some PNone
  else if String.eqb s "true" then Some (PBool true)
  else if String.eqb s "false" then Some (PBool false)
  else if String.eqb s "" then None
  else option_map PInt (digits_value s).

Definition demo_jsonpath_find (path : string) (msg : pyval) : list pyval :=
  if String.eqb path "$" then [msg]
  else if String.eqb (String.substring 0 2 path) "$." then
    match msg with
    | PDict d =>
        let key := String.substring 2 (String.length path - 2) path in
        match dict_get d key with
        | Some v => [v]
        | None => []
        end
    | _ => []
    end
  else [].

(** Numbers in ASCII characters, decimal integers as frames, paths [$]
    and [$.key]; serialisation is left out. *)
Definition demo_runtime : Runtime := {|
  float_of_str := demo_float_of_str;
  py_repr := fun _ => "<repr>";
  json_loads := demo_json_loads;
  json_dumps := fun _ _ => "<json>";
  jsonpath_find := demo_jsonpath_find
|}.

Definition demo_mapping (uid path : string) (mode : option string) : mapping :=
  {| name := uid; unique_id := uid; jsonpath := path; transform := mode;
     unit := None; icon := None; device_class := None; state_class := None |}.

Definition demo_two : list mapping :=
  [demo_mapping "p" "$.p" None; demo_mapping "q" "$.q" None].

(** Three mappings, two of them with a transform. *)
Definition demo_three : list mapping :=
  [ demo_mapping "elapsed" "$.elapsed" (Some "seconds_to_hms");
    demo_mapping "progress" "$.progress" None;
    demo_mapping "state" "$.state" (Some "seconds_to_hms") ].

(** [n] copies of [s], one after the other. *)
Fixpoint copies (n : nat) (s : string) : string :=
  match n with
  | O => EmptyString
  | S n' => s ++ copies n' s
  end.

Definition demo_config (maps : list mapping) : config :=
  {| ws_url := "ws://printer:9999"; base_topic := "k1max";
     device_id := "k1max_1"; device_name := "K1 Max";
     discovery_prefix := "homeassistant"; mappings := maps;
     log_raw_frames := true; raw_frames_limit := 1 |}.

(** A frame of a thousand opening brackets, and what [json.loads] raises
    on it. *)
Definition demo_deep_frame : string := copies 1000 "[".

Definition demo_recursion_error : string :=
  "RecursionError('maximum recursion depth exceeded while decoding a JSON array from a unicode string')".

(** [float(s)] is the float [r]. *)
Definition reads_as (s : string) (r : float) : bool :=
  match float_of_ascii s with
  | Ok f => float_eqb f r
  | Raise _ => false
  end.


(** The order the specification gives for a successful connect: whenever
    the supervisor is about to publish the discovery records, the backoff
    is at its floor already. *)
Definition resets_before_discovery {rt : Runtime} (cfg : config)
  (world : list attempt) : Prop :=
  forall (k : nat) (t : list effect) (c : conf),
    ws_loop cfg k (init cfg world) = (t, c) ->
    at_pc c = PDiscovery -> backoff c = 2.

(** ** Further code and what is observed of it *)

Section BridgeInit.

Context {rt : Runtime}.

(** [Bridge.__init__], the headers of the connection:
    [{str(k): str(v) for k, v in (cfg.get("ws_headers") or {}).items()}];
    [ws_headers] is [cfg.get("ws_headers")], [None] for a missing key or a
    null. *)
Definition init_ws_headers (ws_headers : option (dict pyval)) : dict string :=
  let items := match ws_headers with
               | Some d => d
               | None => []
               end in
  fold_left (fun acc kv => dict_set acc (fst kv) (py_str (snd kv))) items [].

(** The state messages of one frame: those of the entries it yields when
    it decodes, none when [json.loads] rejects it. *)
Definition frame_messages (cfg : config) (msg : string) : list mqtt_msg :=
  match json_loads msg with
  | Some data =>
      published (map (fun kv => publish_state cfg (fst kv) (snd kv))
                   (extract_values cfg data))
  | None => []
  end.

(** The messages of a series of connection attempts: nothing for a
    refused connect; for an opened session the discovery messages, then
    the state messages of its frames in their order; nothing more once
    the loop awaits or has ended. *)
Fixpoint expected_published (cfg : config) (world : list attempt)
  : list mqtt_msg :=
  match world with
  | [] => []
  | Refused _ :: w => expected_published cfg w
  | Opened fr e :: w =>
      (published (publish_discovery cfg)
         ++ flat_map (frame_messages cfg) fr
         ++ match e with
            | Failed _ | Closed => expected_published cfg w
            | Pending | Raising _ _ => []
            end)%list
  end.

(** A message on the discovery topic or on the state topic of a
    configured mapping, retained, with the QoS of its kind. *)
Definition configured_message (cfg : config) (m : mqtt_msg) : Prop :=
  retain m = true
  /\ ((qos m = 1
       /\ exists s : mapping,
            In s (mappings cfg) /\ topic m = discovery_topic cfg s)
      \/ (qos m = 0
          /\ exists s : mapping,
               In s (mappings cfg)
               /\ topic m = base_topic cfg ++ "/state/" ++ unique_id s)).

End BridgeInit.

(** The entries that the loop is about to publish bear identifiers of the
    configuration. *)
Definition items_configured (cfg : config) (c : conf) : Prop :=
  match at_pc c with
  | PPublish items => incl (dict_keys items) (map unique_id (mappings cfg))
  | _ => True
  end.

(** [s.startswith(p)] *)
Fixpoint starts_with (p s : string) : bool :=
  match p, s with
  | EmptyString, _ => true
  | String a p', String b s' => Ascii.eqb a b && starts_with p' s'
  | String _ _, EmptyString => false
  end.

(** The lines of the raw-frame diagnostics, [RAW(json)] and
    [RAW(nonjson)]. *)
Definition is_raw_line (l : string) : bool :=
  starts_with "[k1max-ws-bridge] RAW(" l.

Fixpoint raw_lines (t : list effect) : nat :=
  match t with
  | [] => 0
  | Print l :: t' => (if is_raw_line l then 1 else 0) + raw_lines t'
  | _ :: t' => raw_lines t'
  end.

(** What is left of the debug quota: [self.raw_left] when positive, less
    the line already printed where the decrement is the next statement. *)
Definition quota_left (c : conf) : Z :=
  match at_pc c with
  | PNonJsonDec | PJsonDec _ => Z.max 0 (raw_left c) - 1
  | _ => Z.max 0 (raw_left c)
  end.

(** The decrement is reached with a positive quota only. *)
Definition quota_pending_ok (c : conf) : Prop :=
  match at_pc c with
  | PNonJsonDec | PJsonDec _ => 0 < raw_left c
  | _ => True
  end.

(** Two mappings, the first on the whole frame. *)
Definition demo_whole : list mapping :=
  [demo_mapping "p" "$" None; demo_mapping "q" "$.q" None].

Definition demo_receiving (quota : Z) (frames : list string) : conf :=
  {| at_pc := PRecv; backoff := 2; raw_left := quota; frames_left := frames;
     session_end := Pending; env := [] |}.

(** * Properties *)

(** ** Value transformer *)

Lemma float_eqb_eq (x y : float) : float_eqb x y = true -> x = y.
Proof.
  destruct x as [s|s| |s m e], y as [s'|s'| |s' m' e']; cbn; try discriminate;
    try reflexivity.
  - intros H; apply Bool.eqb_prop in H; congruence.
  - intros H; apply Bool.eqb_prop in H; congruence.
  - intros H. apply andb_prop in H. destruct H as [H He].
    apply andb_prop in H. destruct H as [Hs Hm].
    apply Bool.eqb_prop in Hs. apply Pos.eqb_eq in Hm. apply Z.eqb_eq in He.
    congruence.
Qed.

(** A test that holds of the [n] integers from [lo] on holds of each. *)
Lemma forallb_range (P : Z -> bool) (lo : Z) (n : nat) :
  forallb P (map (fun i => lo + Z.of_nat i) (seq 0 n)) = true ->
  forall j : Z, lo <= j < lo + Z.of_nat n -> P j = true.
Proof.
  intros H j Hj. rewrite forallb_forall in H. apply H.
  apply in_map_iff. exists (Z.to_nat (j - lo)). split; [lia|].
  apply in_seq. lia.
Qed.

Lemma reads_as_eq (s : string) (r : float) :
  reads_as s r = true -> float_of_ascii s = Ok r.
Proof.
  unfold reads_as. destruct (float_of_ascii s); try discriminate.
  intros H; apply float_eqb_eq in H; congruence.
Qed.

Section TransformerProperties.

Context {rt : Runtime}.


Lemma transform_value_None (mode : string) : transform_value PNone mode = PNone.
Proof. reflexivity. Qed.

(** What [transform_value] computes on a value that is not [None]. *)
Lemma transform_value_body (x : pyval) (mode : string) :
  x <> PNone ->
  transform_value x mode =
    try_except
      (if String.eqb mode "percent_0_1_to_0_100" then
         val <- py_float x ;;
         Ok (PFloat (if in_unit val
                     then py_round (fmul val f_hundred) 2
                     else py_round val 2))
       else if String.eqb mode "seconds_to_hms" then
         f <- py_float x ;;
         s <- int_of_float f ;;
         Ok (PStr (hms s))
       else Ok x)
      x.
Proof. destruct x; intros Hx; try reflexivity; contradiction. Qed.

Lemma py_float_Ok_not_None (x : pyval) (v : float) :
  py_float x = Ok v -> x <> PNone.
Proof. intros H ->; discriminate H. Qed.


(** C8: in the two numeric modes a value that [float] rejects comes back
    as it is, and nothing is raised; [None] comes back as [None] in every
    mode. *)
Theorem transform_lenient_fallback :
  (forall (x : pyval) (mode : string) (e : exn),
      py_float x = Raise e ->
      mode = "percent_0_1_to_0_100" \/ mode = "seconds_to_hms" ->
      transform_value x mode = x)
  /\ (forall mode : string, transform_value PNone mode = PNone).
Proof.
  split; [ | exact transform_value_None ].
  intros x mode e He Hmode.
  destruct x; try reflexivity;
    (rewrite transform_value_body by discriminate);
    destruct Hmode as [-> | ->]; cbn [String.eqb Ascii.eqb Bool.eqb];
    rewrite ?String.eqb_refl; rewrite He; reflexivity.
Qed.

(** C10: a mode that is neither [percent_0_1_to_0_100] nor
    [seconds_to_hms], whatever its name, leaves every value as it is. *)
Theorem transform_unknown_mode_identity (x : pyval) (mode : string) :
  mode <> "percent_0_1_to_0_100" ->
  mode <> "seconds_to_hms" ->
  transform_value x mode = x.
Proof.
  intros Hp Hs.
  apply String.eqb_neq in Hp, Hs.
  destruct x; try reflexivity;
    (rewrite transform_value_body by discriminate);
    rewrite Hp, Hs; reflexivity.
Qed.

End TransformerProperties.

(** ** Integers through binary64 *)

Lemma fexp_normal (d : Z) : -1021 <= d -> fexp prec emax d = d - 53.
Proof. intros H; unfold fexp, SpecFloat.emin, prec, emax; lia. Qed.

Lemma digits2_pos_size (p : positive) : digits2_pos p = Pos.size p.
Proof. induction p; simpl; congruence. Qed.

Lemma iter_xO_digits (k p : positive) :
  Zpos (digits2_pos (Pos.iter xO p k)) = Zpos (digits2_pos p) + Zpos k.
Proof.
  induction k as [|k IH] using Pos.peano_ind.
  - simpl; lia.
  - rewrite Pos.iter_succ; simpl digits2_pos; lia.
Qed.

Lemma iter_xO_value (k p : positive) :
  Zpos (Pos.iter xO p k) = Zpos p * 2 ^ Zpos k.
Proof.
  induction k as [|k IH] using Pos.peano_ind.
  - simpl; lia.
  - rewrite Pos.iter_succ, Pos2Z.inj_xO, IH, Pos2Z.inj_succ, Z.pow_succ_r; lia.
Qed.

(** A mantissa of exactly 53 bits with an exponent in range is kept as it
    is by the rounding of binary64. *)
Lemma binary_round_aux_exact (m : positive) (e : Z) :
  Zpos (digits2_pos m) = 53 -> -1074 <= e <= 971 ->
  binary_round_aux prec emax false (Zpos m) e loc_Exact = S754_finite false m e.
Proof.
  intros Hd He.
  unfold binary_round_aux, shr_fexp.
  cbn [Zdigits2 shr_record_of_loc].
  rewrite Hd, fexp_normal by lia.
  replace (53 + e - 53 - e) with 0 by lia.
  cbn [shr shr_m loc_of_shr_record round_nearest_even Zdigits2].
  rewrite Hd, fexp_normal by lia.
  replace (53 + e - 53 - e) with 0 by lia.
  cbn [shr shr_m].
  replace (e <=? emax - prec) with true; [reflexivity|].
  symmetry; apply Z.leb_le; unfold emax, prec; lia.
Qed.

(** Below [2^53] the conversion to a float is exact. *)
Lemma Z2SF_small (p : positive) :
  Zpos p < 2 ^ 53 ->
  exists (m : positive) (k : Z),
    Z2SF (Zpos p) = S754_finite false m (- k) /\ 0 <= k <= 52
    /\ Zpos m = Zpos p * 2 ^ k.
Proof.
  intros Hp.
  assert (Hsize : Zpos (digits2_pos p) <= 53).
  { rewrite digits2_pos_size.
    destruct (Z.le_gt_cases (Zpos (Pos.size p)) 53) as [H|H]; [exact H|].
    exfalso.
    pose proof (Pos.size_le p) as Hle.
    apply Pos2Z.pos_le_pos in Hle.
    rewrite Pos2Z.inj_pow, (Pos2Z.inj_xO p) in Hle.
    assert (H54 : 2 ^ 54 <= 2 ^ Zpos (Pos.size p)).
    { apply Z.pow_le_mono_r; lia. }
    change (2 ^ 54) with (2 * 2 ^ 53) in H54. lia. }
  assert (Hpos : 1 <= Zpos (digits2_pos p)) by lia.
  unfold Z2SF, binary_normalize, binary_round, shl_align.
  rewrite fexp_normal by lia.
  destruct (Z.eq_dec (Zpos (digits2_pos p)) 53) as [E|NE].
  - rewrite E.
    change (53 + 0 - 53 - 0) with 0.
    exists p, 0. rewrite binary_round_aux_exact by (try lia; exact E).
    split; [reflexivity|]. split; [lia|]. lia.
  - remember (Zpos (digits2_pos p) + 0 - 53 - 0) as sh eqn:Hsh.
    destruct sh as [|q|q]; try lia.
    assert (Hq : Zpos q = 53 - Zpos (digits2_pos p)) by lia.
    exists (Pos.iter xO p q), (Zpos q).
    rewrite binary_round_aux_exact.
    + split; [f_equal; lia|]. split; [lia|]. apply iter_xO_value.
    + rewrite iter_xO_digits; lia.
    + lia.
Qed.

Lemma int_of_float_exact (m : positive) (k n : Z) :
  0 <= k -> Zpos m = n * 2 ^ k ->
  int_of_float (S754_finite false m (- k)) = Ok n.
Proof.
  intros Hk Hm. unfold int_of_float, cond_Zopp.
  rewrite Z.shiftl_opp_r, Z.shiftr_div_pow2 by lia.
  rewrite Hm, Z.div_mul; [reflexivity|].
  apply Z.pow_nonzero; lia.
Qed.

(** Every integer from 0 to [2^53] survives [int(float(s))]. *)
Lemma int_float_roundtrip (s : Z) :
  0 <= s <= 2 ^ 53 ->
  exists f : float, float_of_int s = Ok f /\ int_of_float f = Ok s.
Proof.
  intros [H0 H1].
  destruct (Z.eq_dec s (2 ^ 53)) as [->|Hne].
  { eexists; split; vm_compute; reflexivity. }
  destruct s as [|p|p]; try lia.
  { eexists; split; vm_compute; reflexivity. }
  destruct (Z2SF_small p) as (m & k & Hf & Hk & Hm); [lia|].
  exists (S754_finite false m (- k)); split.
  - unfold float_of_int; rewrite Hf; reflexivity.
  - apply int_of_float_exact; [lia|exact Hm].
Qed.

(** ** Formatting and reading back [HH:MM:SS] *)

Lemma take_field_digits (u : uint) (r : string) :
  take_field (NilEmpty.string_of_uint u ++ ":" ++ r)
  = (NilEmpty.string_of_uint u, Some r).
Proof.
  change (":" ++ r) with (String ":" r).
  induction u; cbn [NilEmpty.string_of_uint append]; [reflexivity|..];
    cbn [take_field Ascii.eqb Bool.eqb]; rewrite IHu; reflexivity.
Qed.

Lemma take_field_digits_end (u : uint) :
  take_field (NilEmpty.string_of_uint u) = (NilEmpty.string_of_uint u, None).
Proof.
  induction u; cbn [NilEmpty.string_of_uint]; [reflexivity|..];
    cbn [take_field Ascii.eqb Bool.eqb]; rewrite IHu; reflexivity.
Qed.

Lemma digits_value_uint (u : uint) :
  digits_value (NilEmpty.string_of_uint u) = Some (Z.of_uint u).
Proof. unfold digits_value; rewrite NilEmpty.usu; reflexivity. Qed.

(** [str(n)] of an integer: a minus sign when it is negative, then the
    decimal digits of its magnitude. *)
Lemma str_int_digits (n : Z) :
  exists d : string,
    str_int n = (if n <? 0 then String "-" d else d)
    /\ digits_value d = Some (Z.abs n).
Proof.
  destruct n as [|p|p].
  - exists "0". split; reflexivity.
  - exists (NilEmpty.string_of_uint (Pos.to_uint p)). split; [reflexivity|].
    rewrite digits_value_uint. f_equal. exact (DecimalZ.of_to (Zpos p)).
  - exists (NilEmpty.string_of_uint (Pos.to_uint p)). split; [reflexivity|].
    rewrite digits_value_uint. f_equal. exact (DecimalZ.of_to (Zpos p)).
Qed.

(** [f"{n:02d}"] of a natural number: its decimal digits, with a leading
    zero when there is only one. *)
Lemma fmt_02d_digits (n : Z) :
  0 <= n ->
  exists u : uint,
    fmt_02d n = NilEmpty.string_of_uint u /\ Z.of_uint u = n
    /\ (2 <= String.length (NilEmpty.string_of_uint u))%nat.
Proof.
  intros Hn.
  destruct n as [|p|p]; [| |lia].
  { exists (D0 (D0 Nil)); repeat split; vm_compute; auto. }
  unfold fmt_02d, str_int.
  pose proof (DecimalZ.of_to (Zpos p)) as Hof.
  cbn [Z.to_int Z.of_int NilEmpty.string_of_int Z.ltb Z.compare] in *.
  pose proof (DecimalPos.Unsigned.to_uint_nonnil p) as Hnil.
  destruct (String.length (NilEmpty.string_of_uint (Pos.to_uint p)) <? 2)%nat
    eqn:Hlen.
  - exists (D0 (Pos.to_uint p)). split; [reflexivity|]. split; [exact Hof|].
    destruct (Pos.to_uint p); [congruence|..];
      cbn [NilEmpty.string_of_uint String.length]; lia.
  - exists (Pos.to_uint p). split; [reflexivity|]. split; [exact Hof|].
    apply Nat.ltb_ge in Hlen; exact Hlen.
Qed.

(** Two digits up to 99. *)
Lemma fmt_02d_two (n : Z) : 0 <= n < 100 -> String.length (fmt_02d n) = 2%nat.
Proof.
  intros Hn.
  assert (Hall : forallb
                   (fun i => (String.length (fmt_02d (Z.of_nat i)) =? 2)%nat)
                   (seq 0 100) = true) by (vm_compute; reflexivity).
  rewrite forallb_forall in Hall.
  specialize (Hall (Z.to_nat n)).
  rewrite Z2Nat.id in Hall by lia.
  apply Nat.eqb_eq, Hall, in_seq; lia.
Qed.

(** At most two digits denote at most 99. *)
Lemma uint_two_digits (u : uint) :
  (String.length (NilEmpty.string_of_uint u) <= 2)%nat -> Z.of_uint u <= 99.
Proof.
  intros H.
  destruct u as [|u|u|u|u|u|u|u|u|u|u]; [vm_compute; discriminate|..];
    (destruct u as [|u|u|u|u|u|u|u|u|u|u]; [vm_compute; discriminate|..]);
    (destruct u; [vm_compute; discriminate|..]);
    cbn [NilEmpty.string_of_uint String.length] in H; lia.
Qed.

Lemma hms_parse (s : Z) :
  0 <= s ->
  parse_hms (hms s) = Some (s / 3600, (s mod 3600) / 60, s mod 60)
  /\ (100 <= s / 3600 -> (3 <= hours_width (hms s))%nat).
Proof.
  intros Hs.
  assert (Hh : 0 <= s / 3600) by (apply Z.div_pos; lia).
  assert (Hm : 0 <= (s mod 3600) / 60 < 60).
  { pose proof (Z.mod_pos_bound s 3600 ltac:(lia)).
    split; [apply Z.div_pos; lia | apply Z.div_lt_upper_bound; lia]. }
  assert (Hsec : 0 <= s mod 60 < 60) by (apply Z.mod_pos_bound; lia).
  destruct (fmt_02d_digits (s / 3600) Hh) as (uh & Eh & Vh & Lh).
  destruct (fmt_02d_digits ((s mod 3600) / 60) (proj1 Hm))
    as (um & Em & Vm & _).
  destruct (fmt_02d_digits (s mod 60) (proj1 Hsec)) as (us & Es & Vs & _).
  pose proof (fmt_02d_two ((s mod 3600) / 60) ltac:(lia)) as Lm.
  pose proof (fmt_02d_two (s mod 60) ltac:(lia)) as Ls.
  unfold hours_width, parse_hms, hms.
  rewrite Eh, Em, Es in *.
  rewrite take_field_digits, take_field_digits, take_field_digits_end.
  cbn [fst].
  split.
  - rewrite Lm, Ls.
    replace (2 <=? String.length (NilEmpty.string_of_uint uh))%nat with true
      by (symmetry; apply Nat.leb_le; exact Lh).
    cbn [Nat.eqb andb].
    rewrite !digits_value_uint, Vh, Vm, Vs; reflexivity.
  - intros H100.
    destruct (Nat.le_gt_cases 3 (String.length (NilEmpty.string_of_uint uh)))
      as [Hw|Hw]; [exact Hw|].
    exfalso. pose proof (uint_two_digits uh ltac:(lia)). lia.
Qed.

Section SecondsProperties.

Context {rt : Runtime}.

(** In mode [seconds_to_hms] a value that reads as a float whose integer
    part is [s] becomes the string of [s] seconds. *)
Lemma seconds_transform (x : pyval) (f : float) (s : Z) :
  py_float x = Ok f -> int_of_float f = Ok s ->
  transform_value x "seconds_to_hms" = PStr (hms s).
Proof.
  intros Hf Hs.
  rewrite (transform_value_body x _ (py_float_Ok_not_None x f Hf)).
  cbn [String.eqb Ascii.eqb Bool.eqb].
  rewrite Hf; cbn [bind]; rewrite Hs; reflexivity.
Qed.

(** C4, amended: for every integer [s] from 0 to [2^53] (the integers
    that [int(float(s))] is sure to give back), mode [seconds_to_hms]
    yields a zero-padded [HH:MM:SS] with [3600*H + 60*M + S = s],
    [0 <= M < 60] and [0 <= S < 60]; from 100 hours on the hours field is
    wider than two digits. *)
Theorem seconds_to_hms_exact_range (s : Z) :
  0 <= s <= 2 ^ 53 ->
  renders_as_hms (transform_value (PInt s) "seconds_to_hms") s
  /\ (360000 <= s ->
      exists out : string,
        transform_value (PInt s) "seconds_to_hms" = PStr out
        /\ (3 <= hours_width out)%nat).
Proof.
  intros Hs.
  destruct (int_float_roundtrip s Hs) as (f & Hf & Hi).
  rewrite (seconds_transform (PInt s) f s Hf Hi).
  destruct (hms_parse s (proj1 Hs)) as [Hparse Hwide].
  split.
  - exists (hms s), (s / 3600), ((s mod 3600) / 60), (s mod 60).
    split; [reflexivity|]. split; [exact Hparse|].
    pose proof (Z.mod_pos_bound s 3600 ltac:(lia)) as H3600.
    pose proof (Z.mod_pos_bound s 60 ltac:(lia)) as H60.
    pose proof (Z.div_mod s 3600 ltac:(lia)) as E1.
    assert (Hmm : (s mod 3600) mod 60 = s mod 60).
    { replace (s mod 3600) with (s + (- 60 * (s / 3600)) * 60) by lia.
      apply Z.mod_add; lia. }
    pose proof (Z.div_mod (s mod 3600) 60 ltac:(lia)) as E2.
    repeat split; lia.
  - intros Hbig. exists (hms s). split; [reflexivity|].
    apply Hwide. apply Z.div_le_lower_bound; lia.
Qed.

End SecondsProperties.

(** ** Dictionaries *)

Lemma dict_get_set_same {V : Type} (d : dict V) (k : string) (v : V) :
  dict_get (dict_set d k v) k = Some v.
Proof.
  induction d as [|[k' v'] d IH]; cbn [dict_set dict_get].
  - rewrite String.eqb_refl; reflexivity.
  - destruct (String.eqb k' k) eqn:E; cbn [dict_get]; rewrite E; auto.
Qed.

Lemma dict_get_set_other {V : Type} (d : dict V) (k k0 : string) (v : V) :
  k <> k0 -> dict_get (dict_set d k v) k0 = dict_get d k0.
Proof.
  intros Hne.
  induction d as [|[k' v'] d IH]; cbn [dict_set dict_get].
  - apply String.eqb_neq in Hne; rewrite Hne; reflexivity.
  - destruct (String.eqb k' k) eqn:E; cbn [dict_get].
    + apply String.eqb_eq in E; subst k'.
      apply String.eqb_neq in Hne; rewrite Hne; reflexivity.
    + rewrite IH; reflexivity.
Qed.

(** ** Traces *)

Lemma sleeps_app (t1 t2 : list effect) :
  sleeps (t1 ++ t2) = (sleeps t1 ++ sleeps t2)%list.
Proof.
  induction t1 as [|[l|m|n] t1 IH]; simpl; rewrite ?IH; reflexivity.
Qed.

Lemma published_app (t1 t2 : list effect) :
  published (t1 ++ t2) = (published t1 ++ published t2)%list.
Proof.
  induction t1 as [|[l|m|n] t1 IH]; simpl; rewrite ?IH;
    reflexivity.
Qed.

Lemma printed_app (t1 t2 : list effect) :
  printed (t1 ++ t2) = (printed t1 ++ printed t2)%list.
Proof.
  induction t1 as [|[l|m|n] t1 IH]; simpl; rewrite ?IH;
    reflexivity.
Qed.

(** ** Field extractor *)

Section ExtractorProperties.

Context {rt : Runtime}.

(** What [extract_values] assigns for the mapping [s]. *)
Lemma extract_one_get (msg : pyval) (out : dict pyval) (s : mapping) :
  dict_get (extract_one msg out s) (unique_id s) = Some (extract_value msg s).
Proof. apply dict_get_set_same. Qed.

(** Later mappings with other identifiers leave an entry alone. *)
Lemma extract_fold_other (msg : pyval) (maps : list mapping) (out : dict pyval)
  (k : string) :
  ~ In k (map unique_id maps) ->
  dict_get (fold_left (extract_one msg) maps out) k = dict_get out k.
Proof.
  revert out; induction maps as [|a maps IH]; intros out Hk; [reflexivity|].
  cbn [fold_left]. rewrite IH.
  - apply dict_get_set_other. intros E; apply Hk; left; exact E.
  - intros Hin; apply Hk; right; exact Hin.
Qed.

(** The entry of an identifier is the value of the last mapping that
    bears it. *)
Lemma extract_fold_last (msg : pyval) (maps : list mapping) (out : dict pyval)
  (k : string) :
  In k (map unique_id maps) ->
  exists s' : mapping,
    In s' maps /\ unique_id s' = k
    /\ dict_get (fold_left (extract_one msg) maps out) k
       = Some (extract_value msg s').
Proof.
  revert out; induction maps as [|a maps IH]; intros out Hin; [contradiction|].
  cbn [fold_left].
  destruct (in_dec string_dec k (map unique_id maps)) as [Hl|Hl].
  - destruct (IH (extract_one msg out a) Hl) as (s' & Hin' & Hid' & Hget).
    exists s'. split; [right; exact Hin'|]. split; assumption.
  - destruct Hin as [<- | Hin]; [|contradiction].
    exists a. split; [left; reflexivity|]. split; [reflexivity|].
    rewrite extract_fold_other by exact Hl. apply extract_one_get.
Qed.

Lemma extract_fold_get (msg : pyval) (maps : list mapping) (out : dict pyval)
  (s : mapping) :
  NoDup (map unique_id maps) -> In s maps ->
  dict_get (fold_left (extract_one msg) maps out) (unique_id s)
  = Some (extract_value msg s).
Proof.
  revert out; induction maps as [|a maps IH]; intros out Hnd Hin;
    [contradiction|].
  cbn [map] in Hnd. inversion Hnd as [|? ? Hnotin Hnd']; subst.
  cbn [fold_left]. destruct Hin as [-> | Hin].
  - rewrite extract_fold_other by exact Hnotin. apply extract_one_get.
  - apply IH; assumption.
Qed.

Lemma extract_value_cases (msg : pyval) (s : mapping) :
  extract_value msg s
  = match jsonpath_find (jsonpath s) msg with
    | [] => PNone
    | v :: _ => transform_value v (mode_of s)
    end.
Proof.
  unfold extract_value. destruct (jsonpath_find (jsonpath s) msg); reflexivity.
Qed.

(** C2: the output of [extract_values] has an entry for the identifier of
    every mapping, whatever the frame; with the identifiers of the
    mappings pairwise distinct (the invariant of the data model), the
    entry of a mapping is [None] when its path has no match in the frame
    (the key is there all the same), and otherwise the first match in the
    order of the query engine, transformed in the mode that the mapping
    names in its key [transform], the mode [none] when it has no such
    key. *)
Theorem extract_values_entry (cfg : config) (msg : pyval) (s : mapping) :
  In s (mappings cfg) ->
  (exists v : pyval,
      dict_get (extract_values cfg msg) (unique_id s) = Some v)
  /\ (NoDup (map unique_id (mappings cfg)) ->
      dict_get (extract_values cfg msg) (unique_id s)
      = Some match jsonpath_find (jsonpath s) msg with
             | [] => PNone
             | v :: _ =>
                 transform_value v
                   match transform s with
                   | Some mode => mode
                   | None => "none"
                   end
             end).
Proof.
  intros Hin. unfold extract_values. split.
  - destruct (extract_fold_last msg (mappings cfg) [] (unique_id s)
                (in_map unique_id _ _ Hin))
      as (s' & _ & _ & Hget).
    eexists; exact Hget.
  - intros Hnd.
    rewrite (extract_fold_get msg (mappings cfg) [] s Hnd Hin).
    rewrite extract_value_cases; reflexivity.
Qed.

End ExtractorProperties.

(** ** Publisher *)

Section PublisherProperties.

Context {rt : Runtime}.

(** The discovery message of one mapping. *)
Lemma published_discovery (cfg : config) :
  published (publish_discovery cfg)
  = map (fun s =>
           {| topic := discovery_topic cfg s;
              payload := json_dumps (",", ":") (PDict (to_discovery s cfg));
              qos := 1; retain := true |})
      (mappings cfg).
Proof.
  unfold publish_discovery.
  induction (mappings cfg) as [|s maps IH]; [reflexivity|].
  cbn [flat_map map]. rewrite published_app, IH. reflexivity.
Qed.

(** C5, amended: the discovery record of a mapping holds its name, state
    topic and unique identifier, the device descriptor (identifiers
    [[device_id]], manufacturer, device name, model) and an icon, the
    printer icon when none is set; it holds unit, device class and state
    class, unchanged, exactly when the mapping has them with a non-empty
    value, and no other key; it is published once per mapping, retained
    and with QoS 1. *)
Theorem discovery_record (cfg : config) (s : mapping) :
  let disc := to_discovery s cfg in
  dict_get disc "name" = Some (PStr (name s))
  /\ dict_get disc "state_topic"
     = Some (PStr (base_topic cfg ++ "/state/" ++ unique_id s))
  /\ dict_get disc "unique_id" = Some (PStr (unique_id s))
  /\ dict_get disc "device"
     = Some (PDict [ ("identifiers", PList [PStr (device_id cfg)]);
                     ("manufacturer", PStr "Creality");
                     ("name", PStr (device_name cfg));
                     ("model", PStr "K1/K1 Max (WS Bridge)") ])
  /\ dict_get disc "icon"
     = Some (PStr (if truthy (icon s)
                   then match icon s with Some i => i | None => "" end
                   else "mdi:printer-3d"))
  /\ dict_get disc "unit_of_measurement"
     = (if truthy (unit s) then option_map PStr (unit s) else None)
  /\ dict_get disc "device_class"
     = (if truthy (device_class s) then option_map PStr (device_class s)
        else None)
  /\ dict_get disc "state_class"
     = (if truthy (state_class s) then option_map PStr (state_class s)
        else None)
  /\ incl (dict_keys disc)
       [ "name"; "state_topic"; "unique_id"; "device"; "icon";
         "unit_of_measurement"; "device_class"; "state_class" ]
  /\ publish_discovery_one cfg s
     = [ Publish {| topic := discovery_prefix cfg ++ "/sensor/"
                      ++ device_id cfg ++ "/" ++ unique_id s ++ "/config";
                    payload := json_dumps (",", ":") (PDict disc);
                    qos := 1; retain := true |};
         log ("Published discovery: " ++ discovery_topic cfg s) ]
  /\ published (publish_discovery cfg)
     = map (fun s' =>
              {| topic := discovery_topic cfg s';
                 payload := json_dumps (",", ":")
                              (PDict (to_discovery s' cfg));
                 qos := 1; retain := true |})
         (mappings cfg).
Proof.
  cbv zeta.
  assert (Hkeys : forall l : list string,
             (forall k, In k l -> k = "name" \/ k = "state_topic"
                \/ k = "unique_id" \/ k = "device" \/ k = "icon"
                \/ k = "unit_of_measurement" \/ k = "device_class"
                \/ k = "state_class") ->
             incl l [ "name"; "state_topic"; "unique_id"; "device"; "icon";
                      "unit_of_measurement"; "device_class"; "state_class" ]).
  { intros l H k Hk. specialize (H k Hk). cbn [In]. intuition auto. }
  repeat match goal with |- _ /\ _ => split end;
    try reflexivity;
    try apply published_discovery;
    unfold to_discovery, set_if, get_or, truthy;
    destruct (icon s) as [i|], (unit s) as [u|], (device_class s) as [dc|],
      (state_class s) as [sc|];
    repeat match goal with
      | |- context [String.eqb ?x ""] => destruct (String.eqb x "")
      end;
    cbn; try reflexivity;
    try (apply Hkeys; cbn; intros k Hk; intuition auto).
Qed.

End PublisherProperties.

(** ** Connection supervisor *)

Section SupervisorProperties.

Context {rt : Runtime}.

Variable cfg : config.

Lemma run_unfold (k : nat) (c : conf) :
  ws_loop cfg (S k) c
  = match step cfg c with
    | None => ([], c)
    | Some (es, c') =>
        let (es', c'') := ws_loop cfg k c' in ((es ++ es')%list, c'')
    end.
Proof. reflexivity. Qed.

(** Runs the statements of a configuration whose program point is known,
    with what is known of [json.loads] and of the quota. *)
Ltac run_steps :=
  repeat (rewrite run_unfold;
          cbn [step at_pc frames_left env goto set_session raw_left];
          repeat match goal with
            | H : json_loads _ = _ |- _ => rewrite H
            | H : (0 <? _) = _ |- _ => rewrite H
            end).

Lemma run_add (a b : nat) (c : conf) :
  ws_loop cfg (a + b) c
  = let (t1, c1) := ws_loop cfg a c in
    let (t2, c2) := ws_loop cfg b c1 in ((t1 ++ t2)%list, c2).
Proof.
  revert c; induction a as [|a IH]; intros c.
  - cbn [Nat.add ws_loop]. destruct (ws_loop cfg b c); reflexivity.
  - cbn [Nat.add]. rewrite !run_unfold.
    destruct (step cfg c) as [[es c1]|] eqn:E.
    + rewrite IH. destruct (ws_loop cfg a c1) as [t1 c1'].
      destruct (ws_loop cfg b c1') as [t2 c2]. rewrite app_assoc; reflexivity.
    + destruct b; [reflexivity|]. rewrite run_unfold, E; reflexivity.
Qed.

Lemma run_compose (a b : nat) (c c1 c2 : conf) (t1 t2 : list effect) :
  ws_loop cfg a c = (t1, c1) -> ws_loop cfg b c1 = (t2, c2) ->
  ws_loop cfg (a + b) c = ((t1 ++ t2)%list, c2).
Proof. intros H1 H2; rewrite run_add, H1, H2; reflexivity. Qed.

Lemma at_goto (c : conf) (p : pc) : at_pc c = p -> c = goto p c.
Proof. destruct c; cbn; intros <-; reflexivity. Qed.

(** The loop [for uid, val in values.items()] publishes the state of
    every entry in turn and returns to the frame iterator. *)
Lemma run_publish (items : dict pyval) (c : conf) :
  ws_loop cfg (S (List.length items)) (goto (PPublish items) c)
  = (map (fun kv => publish_state cfg (fst kv) (snd kv)) items, goto PRecv c).
Proof.
  induction items as [|[uid v] items IH]; [reflexivity|].
  cbn [List.length]. rewrite run_unfold.
  change (step cfg (goto (PPublish ((uid, v) :: items)) c))
    with (Some ([publish_state cfg uid v], goto (PPublish items) c)).
  cbv iota beta. rewrite IH. reflexivity.
Qed.

Lemma sleeps_publish (items : dict pyval) :
  sleeps (map (fun kv => publish_state cfg (fst kv) (snd kv)) items) = [].
Proof. induction items as [|[uid v] items IH]; [reflexivity|exact IH]. Qed.

(** C6: [publish_state] sends, to the topic [{base_topic}/state/{uid}],
    retained and with QoS 0, an empty payload for [None] and the string of
    the value otherwise: a string as it is, an integer in decimal digits
    (with its sign when negative), a boolean as [True] or [False], a float
    as its [repr], which reads back as the float for every percentage of
    one decimal from 0 to 100; the loop over the extracted values
    publishes this message for every entry, in the order of the
    entries. *)
Theorem publish_state_message (uid : string) (v : pyval) :
  publish_state cfg uid v
  = Publish {| topic := base_topic cfg ++ "/state/" ++ uid;
               payload := match v with PNone => "" | _ => py_str v end;
               qos := 0; retain := true |}
  /\ publish_state cfg uid PNone
     = Publish {| topic := base_topic cfg ++ "/state/" ++ uid;
                  payload := ""; qos := 0; retain := true |}
  /\ (forall s : string,
        publish_state cfg uid (PStr s)
        = Publish {| topic := base_topic cfg ++ "/state/" ++ uid;
                     payload := s; qos := 0; retain := true |})
  /\ (forall n : Z,
        exists d : string,
          publish_state cfg uid (PInt n)
          = Publish {| topic := base_topic cfg ++ "/state/" ++ uid;
                       payload := if n <? 0 then String "-" d else d;
                       qos := 0; retain := true |}
          /\ digits_value d = Some (Z.abs n))
  /\ (forall b : bool,
        publish_state cfg uid (PBool b)
        = Publish {| topic := base_topic cfg ++ "/state/" ++ uid;
                     payload := if b then "True" else "False";
                     qos := 0; retain := true |})
  /\ (forall f : float,
        publish_state cfg uid (PFloat f)
        = Publish {| topic := base_topic cfg ++ "/state/" ++ uid;
                     payload := float_repr f;
                     qos := 0; retain := true |})
  /\ (forall j : Z,
        0 <= j <= 1000 ->
        float_of_ascii (float_repr (fdiv (Z2SF j) (Z2SF 10)))
        = Ok (fdiv (Z2SF j) (Z2SF 10)))
  /\ forall (c : conf) (items : dict pyval),
       published
         (fst (ws_loop cfg (S (List.length ((uid, v) :: items)))
                 (goto (PPublish ((uid, v) :: items)) c)))
       = {| topic := base_topic cfg ++ "/state/" ++ uid;
            payload := match v with PNone => "" | _ => py_str v end;
            qos := 0; retain := true |}
         :: map (fun kv =>
                   {| topic := base_topic cfg ++ "/state/" ++ fst kv;
                      payload := match snd kv with
                                 | PNone => ""
                                 | _ => py_str (snd kv)
                                 end;
                      qos := 0; retain := true |})
              items.
Proof.
  split; [reflexivity|]. split; [reflexivity|]. split; [reflexivity|].
  split.
  { intros n. destruct (str_int_digits n) as (d & Hd & Hv).
    exists d. split; [|exact Hv].
    unfold publish_state. cbn [py_str]. rewrite Hd. reflexivity. }
  split; [intros [|]; reflexivity|]. split; [reflexivity|].
  split.
  { intros j Hj. apply reads_as_eq.
    apply (forallb_range
             (fun j => reads_as (float_repr (fdiv (Z2SF j) (Z2SF 10)))
                         (fdiv (Z2SF j) (Z2SF 10)))
             0 (Z.to_nat 1001)); [vm_compute; reflexivity|lia]. }
  intros c items. rewrite run_publish.
  cbn [fst map published publish_state snd].
  f_equal.
  induction items as [|[uid' v'] items IH]; [reflexivity|].
  cbn [map published publish_state fst snd]. rewrite IH. reflexivity.
Qed.

Lemma sleeps_discovery : sleeps (publish_discovery cfg) = [].
Proof.
  unfold publish_discovery.
  induction (mappings cfg) as [|s maps IH]; [reflexivity|].
  cbn [flat_map]. rewrite sleeps_app, IH; reflexivity.
Qed.

(** No statement of the loop raises [self.raw_left]. *)
Lemma step_raw_left (c c' : conf) (es : list effect) :
  step cfg c = Some (es, c') -> raw_left c' <= raw_left c.
Proof.
  unfold step.
  destruct (at_pc c) as [ | | | | | |msg|msg err|msg| |data|data|data|items|err| | |err];
    try (intros [= <- <-]; cbn; lia).
  - destruct (env c) as [|[err|fr e] w]; [discriminate|..];
      intros [= <- <-]; cbn; lia.
  - destruct (frames_left c) as [|msg fr].
    + destruct (session_end c) as [err| | |m err]; try discriminate;
        intros [= <- <-]; cbn; lia.
    + intros [= <- <-]; cbn; lia.
  - destruct (json_loads msg); intros [= <- <-]; cbn; lia.
  - destruct (0 <? raw_left c); intros [= <- <-]; cbn; lia.
  - destruct (0 <? raw_left c); intros [= <- <-]; cbn; lia.
  - destruct items as [|[uid v] items]; intros [= <- <-]; cbn; lia.
Qed.

(** A frame that [json.loads] rejects with [JSONDecodeError] is skipped:
    nothing is published for it, the supervisor stays connected and is
    back at the frame iterator with the remaining frames; one line is
    printed for it when the debug quota is positive, none otherwise, and
    the quota is then one less; no statement of the loop ever raises the
    quota. *)
Lemma malformed_frame_skipped (c : conf) (msg : string) (fr : list string) :
  at_pc c = PRecv -> frames_left c = msg :: fr -> json_loads msg = None ->
  exists (k : nat) (t : list effect) (c' : conf),
    ws_loop cfg k c = (t, c')
    /\ published t = []
    /\ (forall j : nat, (j <= k)%nat ->
          phase_of (at_pc (snd (ws_loop cfg j c))) = Connected)
    /\ at_pc c' = PRecv /\ frames_left c' = fr
    /\ session_end c' = session_end c /\ env c' = env c
    /\ backoff c' = backoff c
    /\ printed t
       = (if 0 <? raw_left c
          then ["[k1max-ws-bridge] RAW(nonjson) = " ++ first500 msg]
          else [])
    /\ raw_left c' = (if 0 <? raw_left c then raw_left c - 1 else raw_left c)
    /\ (forall (c0 c1 : conf) (es : list effect),
          step cfg c0 = Some (es, c1) -> raw_left c1 <= raw_left c0).
Proof.
  intros Hpc Hfr Hbad.
  destruct c as [p b r fl se w]; cbn in Hpc, Hfr; subst p fl.
  destruct (0 <? r) eqn:Hr;
    [exists 4%nat | exists 3%nat]; do 2 eexists;
    (split; [run_steps; reflexivity|]);
    cbn [raw_left backoff at_pc frames_left session_end env goto
           set_raw_left set_session];
    rewrite ?Hr;
    (repeat split; try reflexivity; [|exact step_raw_left]);
    intros j Hj;
    do 5 (destruct j as [|j]; [first [lia | run_steps; reflexivity]|]); lia.
Qed.

(** A frame is dealt with in finitely many statements, without a sleep
    and without a change of the backoff. *)
Lemma run_frame (c : conf) (msg : string) (fr : list string) :
  at_pc c = PRecv -> frames_left c = msg :: fr ->
  exists (k : nat) (t : list effect) (c' : conf),
    ws_loop cfg k c = (t, c') /\ sleeps t = []
    /\ at_pc c' = PRecv /\ frames_left c' = fr
    /\ session_end c' = session_end c /\ env c' = env c
    /\ backoff c' = backoff c.
Proof.
  intros Hpc Hfr.
  destruct c as [p b r fl se w]; cbn in Hpc, Hfr; subst p fl.
  destruct (json_loads msg) as [data|] eqn:Hl; destruct (0 <? r) eqn:Hr.
  - exists (5 + S (List.length (extract_values cfg data)))%nat; do 2 eexists.
    split.
    + eapply run_compose; [run_steps; reflexivity | apply run_publish].
    + rewrite !sleeps_app, sleeps_publish. repeat split.
  - exists (4 + S (List.length (extract_values cfg data)))%nat; do 2 eexists.
    split.
    + eapply run_compose; [run_steps; reflexivity | apply run_publish].
    + rewrite !sleeps_app, sleeps_publish. repeat split.
  - exists 4%nat; do 2 eexists. run_steps. repeat split.
  - exists 3%nat; do 2 eexists. run_steps. repeat split.
Qed.

(** So are all the frames of a session. *)
Lemma run_frames (fr : list string) (c : conf) :
  at_pc c = PRecv -> frames_left c = fr ->
  exists (k : nat) (t : list effect) (c' : conf),
    ws_loop cfg k c = (t, c') /\ sleeps t = []
    /\ at_pc c' = PRecv /\ frames_left c' = []
    /\ session_end c' = session_end c /\ env c' = env c
    /\ backoff c' = backoff c.
Proof.
  revert c; induction fr as [|msg fr IH]; intros c Hpc Hfr.
  - exists 0%nat, [], c. repeat split; assumption.
  - destruct (run_frame c msg fr Hpc Hfr)
      as (k1 & t1 & c1 & Hrun1 & Hs1 & Hpc1 & Hfr1 & He1 & Hw1 & Hb1).
    destruct (IH c1 Hpc1 Hfr1)
      as (k2 & t2 & c2 & Hrun2 & Hs2 & Hpc2 & Hfr2 & He2 & Hw2 & Hb2).
    exists (k1 + k2)%nat, (t1 ++ t2)%list, c2.
    split; [exact (run_compose _ _ _ _ _ _ _ Hrun1 Hrun2)|].
    rewrite sleeps_app, Hs1, Hs2.
    repeat split; congruence.
Qed.

(** Where the loop takes no statement, it stays. *)
Lemma run_stopped (k : nat) (c : conf) :
  step cfg c = None -> ws_loop cfg k c = ([], c).
Proof.
  intros H. destruct k; [reflexivity|]. rewrite run_unfold, H. reflexivity.
Qed.

(** C9 fails of the code on a frame that does not decode and on which
    [json.loads] raises an exception other than [JSONDecodeError]
    ([RecursionError] on deeply nested brackets).  The frame is not
    skipped: the exception leaves [ws_loop].  No line is printed for the
    frame, whatever the debug quota; the supervisor does not stay
    connected; the loop takes no further statement, so that the connection
    attempts that would follow are never made. *)
Theorem undecodable_frame_ends_loop (msg err : string) :
  (forall c : conf,
      at_pc c = PRecv -> frames_left c = [] ->
      session_end c = Raising msg err ->
      exists c' : conf,
        ws_loop cfg 2 c = ([], c')
        /\ at_pc c' = PEnded err
        /\ phase_of (at_pc c') = Ended
        /\ phase_of (at_pc c') <> Connected
        /\ raw_left c' = raw_left c /\ env c' = env c
        /\ forall k : nat, ws_loop cfg (2 + k) c = ([], c'))
  /\ (forall (fr : list string) (w : list attempt),
        exists (k : nat) (t : list effect) (c' : conf),
          ws_loop cfg k (init cfg (Opened fr (Raising msg err) :: w))
          = (t, c')
          /\ at_pc c' = PEnded err /\ env c' = w /\ sleeps t = []
          /\ forall k' : nat,
               ws_loop cfg (k + k')
                 (init cfg (Opened fr (Raising msg err) :: w))
               = (t, c')).
Proof.
  split.
  - intros c Hpc Hfr Hend.
    destruct c as [p b r fl se w]; cbn in Hpc, Hfr, Hend; subst p fl se.
    eexists. split; [reflexivity|].
    repeat (split; [first [reflexivity | discriminate]|]).
    intros k. rewrite run_add. cbn [ws_loop step at_pc frames_left session_end
                                      goto app].
    rewrite run_stopped by reflexivity. reflexivity.
  - intros fr w.
    destruct (run_frames fr
                {| at_pc := PRecv; backoff := 2;
                   raw_left := if log_raw_frames cfg
                               then raw_frames_limit cfg else 0;
                   frames_left := fr; session_end := Raising msg err;
                   env := w |}
                eq_refl eq_refl)
      as (k1 & t1 & c1 & Hrun1 & Hs1 & Hpc1 & Hfr1 & He1 & Hw1 & Hb1).
    destruct c1 as [p1 b1 r1 fl1 se1 w1];
      cbn in Hpc1, Hfr1, He1, Hw1, Hb1; subst p1 b1 fl1 se1 w1.
    assert (Hrun : ws_loop cfg (5 + k1 + 2)
                     (init cfg (Opened fr (Raising msg err) :: w))
                   = ((([log ("Connecting to WebSocket: " ++ ws_url cfg)]
                          ++ [log "WebSocket connected."]
                          ++ publish_discovery cfg ++ [])
                         ++ t1) ++ [],
                      {| at_pc := PEnded err; backoff := 2; raw_left := r1;
                         frames_left := []; session_end := Raising msg err;
                         env := w |})%list).
    { eapply run_compose;
        [ eapply run_compose; [reflexivity|exact Hrun1] | reflexivity ]. }
    exists (5 + k1 + 2)%nat; do 2 eexists.
    split; [exact Hrun|]. split; [reflexivity|]. split; [reflexivity|].
    split.
    + rewrite !sleeps_app, Hs1, sleeps_discovery. reflexivity.
    + intros k'. rewrite run_add, Hrun.
      rewrite run_stopped by reflexivity. rewrite app_nil_r. reflexivity.
Qed.

Lemma backoff_seq_succ (j : nat) :
  backoff_seq (S j) = Z.min (backoff_seq j * 2) 60.
Proof.
  unfold backoff_seq. rewrite Nat2Z.inj_succ, Z.pow_succ_r by lia.
  assert (0 < 2 ^ Z.of_nat j) by (apply Z.pow_pos_nonneg; lia).
  lia.
Qed.

(** The sleeps of the supervisor are those of the policy. *)
Lemma run_world (world : list attempt) (j : nat) (c : conf) :
  at_pc c = PTop -> backoff c = backoff_seq j -> env c = world ->
  exists (k : nat) (t : list effect) (c' : conf),
    ws_loop cfg k c = (t, c') /\ step cfg c' = None
    /\ sleeps t = expected_sleeps j world.
Proof.
  revert j c; induction world as [|a world IH]; intros j c Hpc Hb Hw.
  - destruct c as [p b r fl se w]; cbn in Hpc, Hb, Hw; subst p w.
    exists 1%nat; do 2 eexists. repeat split.
  - destruct c as [p b r fl se w]; cbn in Hpc, Hb, Hw; subst p w.
    destruct a as [err|fr e].
    + (* the connect is refused *)
      destruct (IH (S j)
                  {| at_pc := PTop; backoff := Z.min (b * 2) 60; raw_left := r;
                     frames_left := []; session_end := Pending;
                     env := world |})
        as (k & t & c' & Hrun & Hstop & Hs);
        [reflexivity | cbn; rewrite Hb; symmetry; apply backoff_seq_succ
        | reflexivity | ].
      exists (5 + k)%nat; do 2 eexists. split; [|split; [exact Hstop|]].
      * eapply run_compose; [reflexivity | exact Hrun].
      * rewrite sleeps_app, Hs. cbn. rewrite Hb. reflexivity.
    + (* the session opens *)
      destruct (run_frames fr
                  {| at_pc := PRecv; backoff := 2; raw_left := r;
                     frames_left := fr; session_end := e; env := world |}
                  eq_refl eq_refl)
        as (k1 & t1 & c1 & Hrun1 & Hs1 & Hpc1 & Hfr1 & He1 & Hw1 & Hb1).
      destruct c1 as [p1 b1 r1 fl1 se1 w1];
        cbn in Hpc1, Hfr1, He1, Hw1, Hb1; subst p1 b1 fl1 se1 w1.
      destruct e as [err| | |m err].
      * destruct (IH 1%nat
                    {| at_pc := PTop; backoff := 4; raw_left := r1;
                       frames_left := []; session_end := Failed err;
                       env := world |})
          as (k & t & c' & Hrun & Hstop & Hs); try reflexivity.
        exists (5 + k1 + (4 + k))%nat; do 2 eexists.
        split; [|split; [exact Hstop|]].
        -- eapply run_compose;
             [ eapply run_compose; [reflexivity|exact Hrun1]
             | eapply run_compose; [reflexivity|exact Hrun] ].
        -- rewrite !sleeps_app, Hs1, Hs, sleeps_discovery. reflexivity.
      * destruct (IH 0%nat
                    {| at_pc := PTop; backoff := 2; raw_left := r1;
                       frames_left := []; session_end := Closed;
                       env := world |})
          as (k & t & c' & Hrun & Hstop & Hs); try reflexivity.
        exists (5 + k1 + (1 + k))%nat; do 2 eexists.
        split; [|split; [exact Hstop|]].
        -- eapply run_compose;
             [ eapply run_compose; [reflexivity|exact Hrun1]
             | eapply run_compose; [reflexivity|exact Hrun] ].
        -- rewrite !sleeps_app, Hs1, Hs, sleeps_discovery. reflexivity.
      * exists (5 + k1)%nat; do 2 eexists.
        split; [|split].
        -- eapply run_compose; [reflexivity|exact Hrun1].
        -- reflexivity.
        -- rewrite !sleeps_app, Hs1, sleeps_discovery. reflexivity.
      * (* [json.loads] raises on the next frame: the loop ends *)
        exists (5 + k1 + 2)%nat; do 2 eexists.
        split; [|split].
        -- eapply run_compose;
             [ eapply run_compose; [reflexivity|exact Hrun1] | reflexivity ].
        -- reflexivity.
        -- rewrite !sleeps_app, Hs1, sleeps_discovery. reflexivity.
Qed.

Lemma expected_sleeps_refused (errs : list string) (j : nat) :
  expected_sleeps j (map Refused errs)
  = map backoff_seq (seq j (List.length errs)).
Proof.
  revert j; induction errs as [|e errs IH]; intros j; [reflexivity|].
  cbn [map expected_sleeps List.length seq]. rewrite IH; reflexivity.
Qed.

Lemma backoff_seq_capped (j : nat) : (5 <= j)%nat -> backoff_seq j = 60.
Proof.
  intros Hj. unfold backoff_seq.
  assert (2 ^ 5 <= 2 ^ Z.of_nat j) by (apply Z.pow_le_mono_r; lia).
  change (2 ^ 5) with 32 in *. lia.
Qed.

(** C1: the sleeps of the supervisor are those of the backoff policy,
    whatever the connection attempts bring: consecutive failures sleep 2,
    4, 8, 16, 32, 60, 60, ... (doubling from the floor 2, capped at 60),
    and the first failure after a successful connect sleeps the floor 2
    again. *)
Theorem backoff_policy (world : list attempt) :
  (exists (k : nat) (t : list effect) (c : conf),
      ws_loop cfg k (init cfg world) = (t, c) /\ step cfg c = None
      /\ sleeps t = expected_sleeps 0 world)
  /\ (forall errs : list string,
        expected_sleeps 0 (map Refused errs)
        = map backoff_seq (seq 0 (List.length errs)))
  /\ (forall (j : nat) (fr : list string) (err : string)
             (errs : list string),
        expected_sleeps j (Opened fr (Failed err) :: map Refused errs)
        = map backoff_seq (seq 0 (S (List.length errs))))
  /\ map backoff_seq (seq 0 7) = [2; 4; 8; 16; 32; 60; 60]
  /\ (forall j : nat, (5 <= j)%nat -> backoff_seq j = 60).
Proof.
  split; [|split; [|split; [|split]]].
  - apply run_world; reflexivity.
  - intros errs; apply expected_sleeps_refused.
  - intros j fr err errs. cbn [expected_sleeps seq map].
    rewrite expected_sleeps_refused; reflexivity.
  - reflexivity.
  - exact backoff_seq_capped.
Qed.

(** C7, amended: when a connect succeeds, the supervisor logs it, then
    publishes the discovery record of every mapping once, in the order of
    the mappings and with the backoff still what it was, then resets the
    backoff to its floor 2, and only then turns to the frames, none of
    which has been consumed. *)
Theorem connect_discovery_then_reset (c : conf) (fr : list string)
  (e : ending) (w : list attempt) :
  at_pc c = PConnect -> env c = Opened fr e :: w ->
  exists c3 c4 : conf,
    ws_loop cfg 3 c
    = (log "WebSocket connected." :: publish_discovery cfg, c3)
    /\ at_pc c3 = PReset /\ backoff c3 = backoff c /\ frames_left c3 = fr
    /\ ws_loop cfg 4 c
       = (log "WebSocket connected." :: publish_discovery cfg, c4)
    /\ at_pc c4 = PRecv /\ backoff c4 = 2 /\ frames_left c4 = fr
    /\ session_end c4 = e /\ env c4 = w /\ raw_left c4 = raw_left c
    /\ published (log "WebSocket connected." :: publish_discovery cfg)
       = map (fun s =>
                {| topic := discovery_topic cfg s;
                   payload := json_dumps (",", ":")
                                (PDict (to_discovery s cfg));
                   qos := 1; retain := true |})
           (mappings cfg).
Proof.
  intros Hpc Hw.
  destruct c as [p b r fl se w0]; cbn in Hpc, Hw; subst p w0.
  do 2 eexists.
  split.
  { run_steps. cbn [ws_loop app]. rewrite app_nil_r. reflexivity. }
  split; [reflexivity|]. split; [reflexivity|]. split; [reflexivity|].
  split.
  { run_steps. cbn [ws_loop app]. rewrite app_nil_r. reflexivity. }
  repeat (split; [reflexivity|]).
  change (published (log "WebSocket connected." :: publish_discovery cfg))
    with (published (publish_discovery cfg)).
  apply published_discovery.
Qed.

End SupervisorProperties.

(** * Further properties of the code *)

(** ** Value transformer: presence, integers, edge values *)

(** Rounding to binary64 keeps a magnitude below [2^53] exactly, whatever
    the sign. *)
Lemma binary_round_aux_exact_sign (sx : bool) (m : positive) (e : Z) :
  Zpos (digits2_pos m) = 53 -> -1074 <= e <= 971 ->
  binary_round_aux prec emax sx (Zpos m) e loc_Exact = S754_finite sx m e.
Proof.
  intros Hd He.
  unfold binary_round_aux, shr_fexp.
  cbn [Zdigits2 shr_record_of_loc].
  rewrite Hd, fexp_normal by lia.
  replace (53 + e - 53 - e) with 0 by lia.
  cbn [shr shr_m loc_of_shr_record round_nearest_even Zdigits2].
  rewrite Hd, fexp_normal by lia.
  replace (53 + e - 53 - e) with 0 by lia.
  cbn [shr shr_m].
  replace (e <=? emax - prec) with true; [reflexivity|].
  symmetry; apply Z.leb_le; unfold emax, prec; lia.
Qed.

Lemma digits2_pos_bound (p : positive) :
  Zpos p < 2 ^ 53 -> Zpos (digits2_pos p) <= 53.
Proof.
  intros Hp. rewrite digits2_pos_size.
  destruct (Z.le_gt_cases (Zpos (Pos.size p)) 53) as [H|H]; [exact H|].
  exfalso.
  pose proof (Pos.size_le p) as Hle.
  apply Pos2Z.pos_le_pos in Hle.
  rewrite Pos2Z.inj_pow, (Pos2Z.inj_xO p) in Hle.
  assert (H54 : 2 ^ 54 <= 2 ^ Zpos (Pos.size p)).
  { apply Z.pow_le_mono_r; lia. }
  change (2 ^ 54) with (2 * 2 ^ 53) in H54. lia.
Qed.

Lemma binary_round_small (sx : bool) (p : positive) :
  Zpos p < 2 ^ 53 ->
  exists (m : positive) (k : Z),
    binary_round prec emax sx p 0 = S754_finite sx m (- k)
    /\ 0 <= k <= 52 /\ Zpos m = Zpos p * 2 ^ k
    /\ Zpos (digits2_pos m) = 53.
Proof.
  intros Hp.
  pose proof (digits2_pos_bound p Hp) as Hsize.
  assert (Hpos : 1 <= Zpos (digits2_pos p)) by lia.
  unfold binary_round, shl_align.
  rewrite fexp_normal by lia.
  destruct (Z.eq_dec (Zpos (digits2_pos p)) 53) as [E|NE].
  - rewrite E. change (53 + 0 - 53 - 0) with 0.
    exists p, 0. rewrite binary_round_aux_exact_sign by (try lia; exact E).
    repeat split; try lia; exact E.
  - remember (Zpos (digits2_pos p) + 0 - 53 - 0) as sh eqn:Hsh.
    destruct sh as [|q|q]; try lia.
    assert (Hq : Zpos q = 53 - Zpos (digits2_pos p)) by lia.
    assert (Hd : Zpos (digits2_pos (Pos.iter xO p q)) = 53)
      by (rewrite iter_xO_digits; lia).
    exists (Pos.iter xO p q), (Zpos q).
    rewrite binary_round_aux_exact_sign by (try lia; exact Hd).
    split; [f_equal; lia|]. split; [lia|].
    split; [apply iter_xO_value | exact Hd].
Qed.

Lemma digits2_pos_lt (m : positive) :
  Zpos (digits2_pos m) = 53 -> Zpos m < 2 ^ 53.
Proof.
  rewrite digits2_pos_size. intros Hd.
  pose proof (Pos.size_gt m) as Hgt.
  apply Pos2Z.pos_lt_pos in Hgt.
  rewrite Pos2Z.inj_pow, Hd in Hgt. exact Hgt.
Qed.

(** [float(n)] and [int(float(n))] for an integer of magnitude up to
    [2^53]. *)
Lemma float_of_int_small (n : Z) :
  - 2 ^ 53 <= n <= 2 ^ 53 ->
  float_of_int n = Ok (Z2SF n) /\ int_of_float (Z2SF n) = Ok n.
Proof.
  intros Hn.
  destruct (Z.eq_dec n (2 ^ 53)) as [->|H1]; [split; vm_compute; reflexivity|].
  destruct (Z.eq_dec n (- 2 ^ 53)) as [->|H2];
    [split; vm_compute; reflexivity|].
  destruct n as [|p|p]; [split; reflexivity| |].
  - destruct (binary_round_small false p) as (m & k & Hf & Hk & Hm & _); [lia|].
    unfold float_of_int, Z2SF, binary_normalize. rewrite Hf.
    split; [reflexivity|].
    apply int_of_float_exact; [lia|exact Hm].
  - destruct (binary_round_small true p) as (m & k & Hf & Hk & Hm & _); [lia|].
    unfold float_of_int, Z2SF, binary_normalize. rewrite Hf.
    split; [reflexivity|].
    unfold int_of_float, cond_Zopp.
    rewrite Z.shiftl_opp_r, Z.shiftr_div_pow2 by lia.
    rewrite Hm, Z.div_mul by (apply Z.pow_nonzero; lia). reflexivity.
Qed.

(** Of the integers of magnitude up to [2^53], only 0 and 1 lie in
    [0.0 <= v <= 1.0] as floats. *)
Lemma in_unit_int (n : Z) :
  - 2 ^ 53 <= n <= 2 ^ 53 ->
  in_unit (Z2SF n) = (n =? 0) || (n =? 1).
Proof.
  intros Hn.
  destruct (Z.eq_dec n (2 ^ 53)) as [->|H1]; [vm_compute; reflexivity|].
  destruct (Z.eq_dec n (- 2 ^ 53)) as [->|H2]; [vm_compute; reflexivity|].
  destruct n as [|p|p]; [reflexivity| |].
  - destruct (binary_round_small false p) as (m & k & Hf & Hk & Hm & Hd);
      [lia|].
    unfold Z2SF, binary_normalize. rewrite Hf.
    pose proof (digits2_pos_lt m Hd) as Hlt.
    unfold in_unit, fleb, SFleb, f_zero, f_one. cbn [SFcompare andb].
    destruct (Z.eq_dec k 52) as [->|Hk52].
    + (* the exponent of 1.0: the mantissa decides *)
      assert (Hp1 : p = 1%positive).
      { change (2 ^ 53) with (2 * 2 ^ 52) in Hlt.
        assert (0 < 2 ^ 52) by reflexivity. nia. }
      subst p. assert (m = 4503599627370496%positive) as ->.
      { apply Pos2Z.inj. rewrite Hm. reflexivity. }
      reflexivity.
    + assert (Hc : (- k ?= -52) = Gt) by (apply Z.compare_gt_iff; lia).
      rewrite Hc.
      destruct p; try reflexivity.
      exfalso. change (Zpos 1) with 1 in Hm.
      assert (H52 : 2 ^ k * 2 ^ (52 - k) = 2 ^ 52)
        by (rewrite <- Z.pow_add_r by lia; f_equal; lia).
      assert (Hm52 : 2 ^ 52 <= Zpos m).
      { pose proof (Pos.size_le m) as Hle.
        apply Pos2Z.pos_le_pos in Hle.
        rewrite Pos2Z.inj_pow, (Pos2Z.inj_xO m), <- digits2_pos_size, Hd in Hle.
        change (2 ^ 53) with (2 * 2 ^ 52) in Hle. lia. }
      assert (Hlt2 : 2 ^ k < 2 ^ 52) by (apply Z.pow_lt_mono_r; lia).
      lia.
  - destruct (binary_round_small true p) as (m & k & Hf & _); [lia|].
    unfold Z2SF, binary_normalize. rewrite Hf. reflexivity.
Qed.

Lemma string_length_append (a b : string) :
  String.length (a ++ b) = (String.length a + String.length b)%nat.
Proof.
  induction a as [|c a IH]; cbn; [reflexivity|rewrite IH; reflexivity].
Qed.

Lemma hms_length (s : Z) :
  0 <= s < 360000 -> String.length (hms s) = 8%nat.
Proof.
  intros Hs. unfold hms.
  assert (Hh : 0 <= s / 3600 < 100)
    by (split; [apply Z.div_pos | apply Z.div_lt_upper_bound]; lia).
  pose proof (Z.mod_pos_bound s 3600 ltac:(lia)) as H3600.
  assert (Hm : 0 <= (s mod 3600) / 60 < 100)
    by (split; [apply Z.div_pos | apply Z.div_lt_upper_bound]; lia).
  pose proof (Z.mod_pos_bound s 60 ltac:(lia)) as H60.
  rewrite !string_length_append, !fmt_02d_two by lia. reflexivity.
Qed.

(** The string of a negative integer: a minus sign and the digits of its
    magnitude. *)
Lemma str_int_negative (p : positive) :
  str_int (Zneg p) = String "-" (NilEmpty.string_of_uint (Pos.to_uint p))
  /\ digits_value (NilEmpty.string_of_uint (Pos.to_uint p)) = Some (Zpos p).
Proof.
  split; [reflexivity|].
  rewrite digits_value_uint. f_equal.
  exact (DecimalZ.of_to (Zpos p)).
Qed.

Section TransformerEdgeProperties.

Context {rt : Runtime}.

(** X1: a value that is present stays present: whatever the mode,
    [transform_value] returns [None] only for [None]. *)
Theorem transform_keeps_presence (x : pyval) (mode : string) :
  x <> PNone -> transform_value x mode <> PNone.
Proof.
  intros Hx. rewrite transform_value_body by exact Hx.
  destruct (String.eqb mode "percent_0_1_to_0_100").
  - destruct (py_float x); cbn [bind try_except]; [discriminate|exact Hx].
  - destruct (String.eqb mode "seconds_to_hms"); [|exact Hx].
    destruct (py_float x) as [f|]; cbn [bind try_except]; [|exact Hx].
    destruct (int_of_float f); cbn [bind try_except]; [discriminate|exact Hx].
Qed.

(** X2: in mode [seconds_to_hms] a value that reads as a NaN or as an
    infinity comes back as it is ([int] raises on it). *)
Theorem seconds_nonfinite_unchanged (x : pyval) (f : float) :
  py_float x = Ok f ->
  f = S754_nan \/ (exists s : bool, f = S754_infinity s) ->
  transform_value x "seconds_to_hms" = x.
Proof.
  intros Hf Hnf.
  rewrite (transform_value_body x _ (py_float_Ok_not_None x f Hf)).
  cbn [String.eqb Ascii.eqb Bool.eqb]. rewrite Hf; cbn [bind].
  destruct Hnf as [-> | [s ->]]; reflexivity.
Qed.

(** X3: in mode [percent_0_1_to_0_100] an integer of magnitude up to
    [2^53] is rescaled only when it is 0 or 1 (1 becomes 100); every other
    integer, 42 say, keeps its scale. *)
Theorem percent_integer (n : Z) :
  - 2 ^ 53 <= n <= 2 ^ 53 ->
  transform_value (PInt n) "percent_0_1_to_0_100"
  = PFloat (if (n =? 0) || (n =? 1)
            then py_round (fmul (Z2SF n) f_hundred) 2
            else py_round (Z2SF n) 2).
Proof.
  intros Hn.
  destruct (float_of_int_small n Hn) as [Hf _].
  rewrite transform_value_body by discriminate.
  rewrite String.eqb_refl. cbn [py_float]. rewrite Hf. cbn [bind try_except].
  rewrite (in_unit_int n Hn). reflexivity.
Qed.

(** X4: in mode [seconds_to_hms] a negative integer down to [-2^53] is
    rendered by floor division: a minus sign and the digits of the hours,
    which are negative, then two digits of minutes and of seconds within
    0..59, with [3600*H + 60*M + S = s]; so -5 gives [-1:59:55]. *)
Theorem seconds_to_hms_negative (s : Z) :
  - 2 ^ 53 <= s < 0 ->
  exists (H M S : Z) (d : string),
    transform_value (PInt s) "seconds_to_hms"
    = PStr (String "-" d ++ ":" ++ fmt_02d M ++ ":" ++ fmt_02d S)
    /\ digits_value d = Some (- H) /\ H < 0
    /\ 3600 * H + 60 * M + S = s /\ 0 <= M < 60 /\ 0 <= S < 60
    /\ String.length (fmt_02d M) = 2%nat
    /\ String.length (fmt_02d S) = 2%nat.
Proof.
  intros Hs.
  destruct (float_of_int_small s ltac:(lia)) as [Hf Hi].
  rewrite (seconds_transform (PInt s) (Z2SF s) s Hf Hi).
  pose proof (Z.mod_pos_bound s 3600 ltac:(lia)) as H3600.
  pose proof (Z.mod_pos_bound s 60 ltac:(lia)) as H60.
  pose proof (Z.div_mod s 3600 ltac:(lia)) as E1.
  pose proof (Z.div_mod (s mod 3600) 60 ltac:(lia)) as E2.
  assert (Hmm : (s mod 3600) mod 60 = s mod 60).
  { replace (s mod 3600) with (s + (- 60 * (s / 3600)) * 60) by lia.
    apply Z.mod_add; lia. }
  assert (Hh : s / 3600 < 0) by (apply Z.div_lt_upper_bound; lia).
  assert (Hm : 0 <= (s mod 3600) / 60 < 60)
    by (split; [apply Z.div_pos | apply Z.div_lt_upper_bound]; lia).
  destruct (s / 3600) as [|p|p] eqn:Eh; try lia.
  destruct (str_int_negative p) as [Hstr Hval].
  exists (Zneg p), ((s mod 3600) / 60), (s mod 60),
    (NilEmpty.string_of_uint (Pos.to_uint p)).
  split.
  { unfold hms. rewrite Eh. unfold fmt_02d at 1.
    change (Zneg p <? 0) with true. cbv iota. rewrite Hstr. reflexivity. }
  split; [exact Hval|].
  repeat split; try lia; apply fmt_02d_two; lia.
Qed.

(** X5: below 100 hours the rendering of [seconds_to_hms] has exactly
    eight characters. *)
Theorem seconds_to_hms_eight_chars (s : Z) :
  0 <= s < 360000 ->
  exists out : string,
    transform_value (PInt s) "seconds_to_hms" = PStr out
    /\ String.length out = 8%nat.
Proof.
  intros Hs.
  destruct (float_of_int_small s) as [Hf Hi].
  { change (2 ^ 53) with 9007199254740992. lia. }
  exists (hms s). split; [|apply hms_length; exact Hs].
  exact (seconds_transform (PInt s) (Z2SF s) s Hf Hi).
Qed.

End TransformerEdgeProperties.

(** ** Dictionaries: keys *)

Lemma dict_set_absent {V : Type} (d : dict V) (k : string) (v : V) :
  ~ In k (dict_keys d) -> dict_set d k v = (d ++ [(k, v)])%list.
Proof.
  induction d as [|[k' v'] d IH]; intros Hk; [reflexivity|].
  cbn [dict_set app].
  destruct (String.eqb k' k) eqn:E.
  - apply String.eqb_eq in E; subst k'. exfalso; apply Hk; left; reflexivity.
  - rewrite IH; [reflexivity|]. intros Hin; apply Hk; right; exact Hin.
Qed.

Lemma dict_keys_set_in {V : Type} (d : dict V) (k k0 : string) (v : V) :
  In k0 (dict_keys (dict_set d k v)) <-> k0 = k \/ In k0 (dict_keys d).
Proof.
  induction d as [|[k' v'] d IH]; cbn [dict_set dict_keys map fst In].
  - intuition auto.
  - destruct (String.eqb k' k) eqn:E; cbn [dict_keys map fst In].
    + apply String.eqb_eq in E; subst k'. intuition auto.
    + unfold dict_keys in IH. rewrite IH. intuition auto.
Qed.

Lemma dict_keys_set_NoDup {V : Type} (d : dict V) (k : string) (v : V) :
  NoDup (dict_keys d) -> NoDup (dict_keys (dict_set d k v)).
Proof.
  induction d as [|[k' v'] d IH]; intros Hnd; cbn [dict_set dict_keys map fst].
  - constructor; [intros []|constructor].
  - inversion Hnd as [|? ? Hnotin Hnd']; subst.
    destruct (String.eqb k' k) eqn:E; cbn [dict_keys map fst].
    + exact Hnd.
    + constructor; [|apply IH; exact Hnd'].
      intros Hin. apply (dict_keys_set_in d k k' v) in Hin.
      destruct Hin as [-> | Hin]; [|exact (Hnotin Hin)].
      rewrite String.eqb_refl in E; discriminate.
Qed.

(** ** Field extractor: the shape of the output *)

Section ExtractorShape.

Context {rt : Runtime}.

Lemma extract_fold_keys (msg : pyval) (maps : list mapping) (acc : dict pyval) :
  NoDup (dict_keys acc) ->
  NoDup (dict_keys (fold_left (extract_one msg) maps acc))
  /\ forall k : string,
       In k (dict_keys (fold_left (extract_one msg) maps acc))
       <-> In k (dict_keys acc) \/ In k (map unique_id maps).
Proof.
  revert acc; induction maps as [|a maps IH]; intros acc Hnd.
  - cbn [fold_left map In]. split; [exact Hnd|]. intuition auto.
  - cbn [fold_left map In].
    destruct (IH (extract_one msg acc a)) as [Hnd' Hkeys].
    { apply dict_keys_set_NoDup; exact Hnd. }
    split; [exact Hnd'|].
    intros k. rewrite Hkeys. unfold extract_one. rewrite dict_keys_set_in.
    intuition auto.
Qed.

Lemma extract_fold_in_order (msg : pyval) (maps : list mapping)
  (acc : dict pyval) :
  NoDup (dict_keys acc ++ map unique_id maps) ->
  fold_left (extract_one msg) maps acc
  = (acc ++ map (fun s => (unique_id s, extract_value msg s)) maps)%list.
Proof.
  revert acc; induction maps as [|a maps IH]; intros acc Hnd.
  - cbn [fold_left map]. rewrite app_nil_r; reflexivity.
  - cbn [fold_left map]. unfold extract_one at 2.
    assert (Habs : ~ In (unique_id a) (dict_keys acc)).
    { intros Hin. apply NoDup_remove_2 in Hnd. apply Hnd.
      apply in_or_app; left; exact Hin. }
    rewrite dict_set_absent by exact Habs.
    rewrite IH.
    + rewrite <- app_assoc. reflexivity.
    + unfold dict_keys in *. rewrite map_app. cbn [map fst].
      rewrite <- app_assoc. exact Hnd.
Qed.

(** X6: the keys of the output of [extract_values] are pairwise distinct
    and are exactly the identifiers of the mappings, so that the output
    has at most as many entries as there are mappings. *)
Theorem extract_values_keys (cfg : config) (msg : pyval) :
  NoDup (dict_keys (extract_values cfg msg))
  /\ (forall k : string,
        In k (dict_keys (extract_values cfg msg))
        <-> In k (map unique_id (mappings cfg)))
  /\ (List.length (extract_values cfg msg) <= List.length (mappings cfg))%nat.
Proof.
  destruct (extract_fold_keys msg (mappings cfg) []) as [Hnd Hkeys];
    [constructor|].
  assert (Hiff : forall k : string,
             In k (dict_keys (extract_values cfg msg))
             <-> In k (map unique_id (mappings cfg))).
  { intros k. unfold extract_values. rewrite Hkeys. cbn [dict_keys map In].
    intuition auto. }
  split; [exact Hnd|]. split; [exact Hiff|].
  rewrite <- (length_map fst (extract_values cfg msg)).
  rewrite <- (length_map unique_id (mappings cfg)).
  apply NoDup_incl_length; [exact Hnd|].
  intros k Hk. apply Hiff. exact Hk.
Qed.

(** X7: with pairwise distinct identifiers, the output of
    [extract_values] lists the mappings in their order, each identifier
    with the transformed first match of its path. *)
Theorem extract_values_in_order (cfg : config) (msg : pyval) :
  NoDup (map unique_id (mappings cfg)) ->
  extract_values cfg msg
  = map (fun s => (unique_id s, extract_value msg s)) (mappings cfg).
Proof.
  intros Hnd. unfold extract_values.
  rewrite extract_fold_in_order; [reflexivity|exact Hnd].
Qed.

End ExtractorShape.

(** ** Strings *)

Lemma append_inv_head (a x y : string) : a ++ x = a ++ y -> x = y.
Proof.
  induction a as [|c a IH]; cbn [append]; intros H; [exact H|].
  injection H as H. exact (IH H).
Qed.

Lemma list_ascii_of_string_append (a b : string) :
  list_ascii_of_string (a ++ b)
  = (list_ascii_of_string a ++ list_ascii_of_string b)%list.
Proof.
  induction a as [|c a IH]; cbn [append list_ascii_of_string app];
    [reflexivity|rewrite IH; reflexivity].
Qed.

Lemma append_inv_tail (a x y : string) : x ++ a = y ++ a -> x = y.
Proof.
  intros H. apply (f_equal list_ascii_of_string) in H.
  rewrite !list_ascii_of_string_append in H.
  apply app_inv_tail in H.
  rewrite <- (string_of_list_ascii_of_string x),
    <- (string_of_list_ascii_of_string y), H.
  reflexivity.
Qed.

(** ** Publisher: topics and keys *)

Lemma set_if_get_other (disc : dict pyval) (key k : string)
  (o : option string) :
  key <> k -> dict_get (set_if disc key o) k = dict_get disc k.
Proof.
  intros Hne. unfold set_if.
  destruct o as [s|]; [|reflexivity].
  destruct (truthy (Some s)); [|reflexivity].
  apply dict_get_set_other; exact Hne.
Qed.

Lemma set_if_keys (disc : dict pyval) (key : string) (o : option string) :
  ~ In key (dict_keys disc) ->
  dict_keys (set_if disc key o)
  = (dict_keys disc ++ if truthy o then [key] else [])%list.
Proof.
  intros Habs. unfold set_if.
  destruct o as [s|]; [|cbn [truthy]; rewrite app_nil_r; reflexivity].
  destruct (truthy (Some s)); [|rewrite app_nil_r; reflexivity].
  rewrite dict_set_absent by exact Habs.
  unfold dict_keys. rewrite map_app. reflexivity.
Qed.

Section TopicProperties.

Context {rt : Runtime}.

(** X9: the [state_topic] that the discovery record of a mapping
    announces is the topic on which [publish_state] publishes the values
    of that mapping. *)
Theorem discovery_names_state_topic (cfg : config) (s : mapping) (v : pyval) :
  exists m : mqtt_msg,
    publish_state cfg (unique_id s) v = Publish m
    /\ dict_get (to_discovery s cfg) "state_topic" = Some (PStr (topic m)).
Proof.
  eexists. split; [reflexivity|].
  unfold to_discovery. cbv zeta.
  rewrite !set_if_get_other by discriminate.
  reflexivity.
Qed.

(** X10: two mappings share a discovery topic, or a state topic, only if
    they share their identifier. *)
Theorem topics_injective (cfg : config) (s1 s2 : mapping) :
  (discovery_topic cfg s1 = discovery_topic cfg s2
   <-> unique_id s1 = unique_id s2)
  /\ (forall (v1 v2 : pyval) (m1 m2 : mqtt_msg),
        publish_state cfg (unique_id s1) v1 = Publish m1 ->
        publish_state cfg (unique_id s2) v2 = Publish m2 ->
        (topic m1 = topic m2 <-> unique_id s1 = unique_id s2)).
Proof.
  split.
  - unfold discovery_topic. split; [|intros ->; reflexivity].
    intros H.
    apply (append_inv_head (discovery_prefix cfg)) in H.
    apply (append_inv_head "/sensor/") in H.
    apply (append_inv_head (device_id cfg)) in H.
    apply (append_inv_head "/") in H.
    apply (append_inv_tail "/config") in H. exact H.
  - intros v1 v2 m1 m2 [= <-] [= <-]. cbn [topic].
    split; [|intros ->; reflexivity].
    intros H.
    apply (append_inv_head (base_topic cfg)) in H.
    apply (append_inv_head "/state/") in H. exact H.
Qed.

(** X11: the keys of a discovery record, in order: the five fixed ones,
    then [unit_of_measurement], [device_class] and [state_class] for the
    optional fields that are set and not empty; no key occurs twice. *)
Theorem to_discovery_keys (cfg : config) (s : mapping) :
  dict_keys (to_discovery s cfg)
  = ([ "name"; "state_topic"; "unique_id"; "device"; "icon" ]
       ++ (if truthy (unit s) then ["unit_of_measurement"] else [])
       ++ (if truthy (device_class s) then ["device_class"] else [])
       ++ (if truthy (state_class s) then ["state_class"] else []))%list
  /\ NoDup (dict_keys (to_discovery s cfg)).
Proof.
  assert (E : dict_keys (to_discovery s cfg)
              = ([ "name"; "state_topic"; "unique_id"; "device"; "icon" ]
                   ++ (if truthy (unit s) then ["unit_of_measurement"] else [])
                   ++ (if truthy (device_class s) then ["device_class"] else [])
                   ++ (if truthy (state_class s) then ["state_class"] else [])
                )%list).
  { unfold to_discovery. cbv zeta.
    rewrite set_if_keys.
    - rewrite set_if_keys.
      + rewrite set_if_keys.
        * rewrite <- !app_assoc. reflexivity.
        * cbn; intuition discriminate.
      + rewrite set_if_keys by (cbn; intuition discriminate).
        destruct (truthy (unit s)); cbn; intuition discriminate.
    - rewrite set_if_keys.
      + rewrite set_if_keys by (cbn; intuition discriminate).
        destruct (truthy (unit s)), (truthy (device_class s)); cbn;
          intuition discriminate.
      + rewrite set_if_keys by (cbn; intuition discriminate).
        destruct (truthy (unit s)); cbn; intuition discriminate. }
  split; [exact E|]. rewrite E.
  destruct (truthy (unit s)), (truthy (device_class s)),
    (truthy (state_class s)); cbn [app];
    repeat (constructor; [cbn; intuition discriminate|]); constructor.
Qed.

(** X12: the headers built by [Bridge.__init__] keep the keys of
    [ws_headers] in their order, each with the string of its value. *)
Theorem init_ws_headers_entries (d : dict pyval) :
  NoDup (dict_keys d) ->
  init_ws_headers (Some d) = map (fun kv => (fst kv, py_str (snd kv))) d
  /\ forall k : string,
       dict_get (init_ws_headers (Some d)) k
       = option_map py_str (dict_get d k).
Proof.
  intros Hnd.
  assert (Hfold : forall (items : dict pyval) (acc : dict string),
             NoDup (dict_keys acc ++ dict_keys items) ->
             fold_left (fun acc kv => dict_set acc (fst kv) (py_str (snd kv)))
               items acc
             = (acc ++ map (fun kv => (fst kv, py_str (snd kv))) items)%list).
  { induction items as [|[k v] items IH]; intros acc Hacc.
    - cbn [fold_left map]. rewrite app_nil_r; reflexivity.
    - cbn [fold_left map fst snd].
      assert (Habs : ~ In k (dict_keys acc)).
      { intros Hin. cbn [dict_keys map fst] in Hacc.
        apply NoDup_remove_2 in Hacc. apply Hacc.
        apply in_or_app; left; exact Hin. }
      rewrite dict_set_absent by exact Habs.
      rewrite IH.
      + rewrite <- app_assoc. reflexivity.
      + unfold dict_keys in *. rewrite map_app. cbn [map fst] in *.
        rewrite <- app_assoc. exact Hacc. }
  assert (E : init_ws_headers (Some d)
              = map (fun kv => (fst kv, py_str (snd kv))) d).
  { unfold init_ws_headers. rewrite Hfold; [reflexivity|exact Hnd]. }
  split; [exact E|].
  intros k. rewrite E. clear.
  induction d as [|[k' v] d IH]; [reflexivity|].
  cbn [map fst snd dict_get].
  destruct (String.eqb k' k); [reflexivity|exact IH].
Qed.

End TopicProperties.

(** ** Connection supervisor: what it publishes, prints and sleeps *)

Section SupervisorTraces.

Context {rt : Runtime}.

Variable cfg : config.

Ltac loop_steps :=
  repeat (rewrite run_unfold;
          cbn [step at_pc frames_left env goto set_session raw_left];
          repeat match goal with
            | H : json_loads _ = _ |- _ => rewrite H
            | H : (0 <? _) = _ |- _ => rewrite H
            end).

Lemma published_states (items : dict pyval) :
  published (map (fun kv => publish_state cfg (fst kv) (snd kv)) items)
  = map (fun kv =>
           {| topic := base_topic cfg ++ "/state/" ++ fst kv;
              payload := match snd kv with
                         | PNone => ""
                         | _ => py_str (snd kv)
                         end;
              qos := 0; retain := true |})
      items.
Proof.
  induction items as [|[uid v] items IH]; [reflexivity|].
  cbn [map published publish_state fst snd]. rewrite IH. reflexivity.
Qed.

Lemma printed_states (items : dict pyval) :
  printed (map (fun kv => publish_state cfg (fst kv) (snd kv)) items) = [].
Proof. induction items as [|[uid v] items IH]; [reflexivity|exact IH]. Qed.

(** X13: a frame that decodes makes the loop publish the state of every
    entry of [extract_values], in the order of the entries and retained
    with QoS 0, print one [RAW(json)] line when the debug quota is
    positive (which costs one unit of it), never sleep, and return to the
    frame iterator with the remaining frames and the same backoff. *)
Theorem decoded_frame_published (c : conf) (msg : string) (fr : list string)
  (data : pyval) :
  at_pc c = PRecv -> frames_left c = msg :: fr -> json_loads msg = Some data ->
  exists (k : nat) (t : list effect) (c' : conf),
    ws_loop cfg k c = (t, c')
    /\ published t
       = map (fun kv =>
                {| topic := base_topic cfg ++ "/state/" ++ fst kv;
                   payload := match snd kv with
                              | PNone => ""
                              | _ => py_str (snd kv)
                              end;
                   qos := 0; retain := true |})
           (extract_values cfg data)
    /\ printed t
       = (if 0 <? raw_left c
          then ["[k1max-ws-bridge] RAW(json) = "
                  ++ first500 (json_dumps (", ", ": ") data)]
          else [])
    /\ sleeps t = []
    /\ at_pc c' = PRecv /\ frames_left c' = fr
    /\ session_end c' = session_end c /\ env c' = env c
    /\ backoff c' = backoff c
    /\ raw_left c' = (if 0 <? raw_left c then raw_left c - 1 else raw_left c).
Proof.
  intros Hpc Hfr Hl.
  destruct c as [p b r fl se w]; cbn in Hpc, Hfr; subst p fl.
  cbn [raw_left backoff session_end env].
  destruct (0 <? r) eqn:Hr.
  - exists (5 + S (List.length (extract_values cfg data)))%nat; do 2 eexists.
    split; [eapply run_compose; [loop_steps; reflexivity | apply run_publish]|].
    rewrite !published_app, !printed_app, !sleeps_app, published_states,
      printed_states, sleeps_publish.
    repeat split.
  - exists (4 + S (List.length (extract_values cfg data)))%nat; do 2 eexists.
    split; [eapply run_compose; [loop_steps; reflexivity | apply run_publish]|].
    rewrite !published_app, !printed_app, !sleeps_app, published_states,
      printed_states, sleeps_publish.
    repeat split.
Qed.

(** A frame, decodable or not: its state messages and nothing else on the
    bus, no sleep, the session as it was. *)
Lemma run_frame_published (c : conf) (msg : string) (fr : list string) :
  at_pc c = PRecv -> frames_left c = msg :: fr ->
  exists (k : nat) (t : list effect) (c' : conf),
    ws_loop cfg k c = (t, c') /\ published t = frame_messages cfg msg
    /\ at_pc c' = PRecv /\ frames_left c' = fr
    /\ session_end c' = session_end c /\ env c' = env c.
Proof.
  intros Hpc Hfr. unfold frame_messages.
  destruct c as [p b r fl se w]; cbn in Hpc, Hfr; subst p fl.
  destruct (json_loads msg) as [data|] eqn:Hl; destruct (0 <? r) eqn:Hr.
  - exists (5 + S (List.length (extract_values cfg data)))%nat; do 2 eexists.
    split; [eapply run_compose; [loop_steps; reflexivity | apply run_publish]|].
    rewrite !published_app. repeat split.
  - exists (4 + S (List.length (extract_values cfg data)))%nat; do 2 eexists.
    split; [eapply run_compose; [loop_steps; reflexivity | apply run_publish]|].
    rewrite !published_app. repeat split.
  - exists 4%nat; do 2 eexists. loop_steps. repeat split.
  - exists 3%nat; do 2 eexists. loop_steps. repeat split.
Qed.

Lemma run_frames_published (fr : list string) (c : conf) :
  at_pc c = PRecv -> frames_left c = fr ->
  exists (k : nat) (t : list effect) (c' : conf),
    ws_loop cfg k c = (t, c')
    /\ published t = flat_map (frame_messages cfg) fr
    /\ at_pc c' = PRecv /\ frames_left c' = []
    /\ session_end c' = session_end c /\ env c' = env c.
Proof.
  revert c; induction fr as [|msg fr IH]; intros c Hpc Hfr.
  - exists 0%nat, [], c. repeat split; assumption.
  - destruct (run_frame_published c msg fr Hpc Hfr)
      as (k1 & t1 & c1 & Hrun1 & Hp1 & Hpc1 & Hfr1 & He1 & Hw1).
    destruct (IH c1 Hpc1 Hfr1)
      as (k2 & t2 & c2 & Hrun2 & Hp2 & Hpc2 & Hfr2 & He2 & Hw2).
    exists (k1 + k2)%nat, (t1 ++ t2)%list, c2.
    split; [exact (run_compose _ _ _ _ _ _ _ _ Hrun1 Hrun2)|].
    rewrite published_app, Hp1, Hp2. cbn [flat_map].
    repeat split; congruence.
Qed.

Lemma run_world_published (world : list attempt) (c : conf) :
  at_pc c = PTop -> env c = world ->
  exists (k : nat) (t : list effect) (c' : conf),
    ws_loop cfg k c = (t, c') /\ step cfg c' = None
    /\ published t = expected_published cfg world.
Proof.
  revert c; induction world as [|a world IH]; intros c Hpc Hw.
  - destruct c as [p b r fl se w]; cbn in Hpc, Hw; subst p w.
    exists 1%nat; do 2 eexists. repeat split.
  - destruct c as [p b r fl se w]; cbn in Hpc, Hw; subst p w.
    destruct a as [err|fr e].
    + destruct (IH {| at_pc := PTop; backoff := Z.min (b * 2) 60;
                      raw_left := r; frames_left := [];
                      session_end := Pending; env := world |}
                  eq_refl eq_refl)
        as (k & t & c' & Hrun & Hstop & Hp).
      exists (5 + k)%nat; do 2 eexists. split; [|split; [exact Hstop|]].
      * eapply run_compose; [reflexivity | exact Hrun].
      * rewrite published_app, Hp. reflexivity.
    + destruct (run_frames_published fr
                  {| at_pc := PRecv; backoff := 2; raw_left := r;
                     frames_left := fr; session_end := e; env := world |}
                  eq_refl eq_refl)
        as (k1 & t1 & c1 & Hrun1 & Hp1 & Hpc1 & Hfr1 & He1 & Hw1).
      destruct c1 as [p1 b1 r1 fl1 se1 w1];
        cbn in Hpc1, Hfr1, He1, Hw1; subst p1 fl1 se1 w1.
      assert (Hhead : ws_loop cfg 5
                        {| at_pc := PTop; backoff := b; raw_left := r;
                           frames_left := fl; session_end := se;
                           env := Opened fr e :: world |}
                      = ((log ("Connecting to WebSocket: " ++ ws_url cfg)
                            :: log "WebSocket connected."
                            :: publish_discovery cfg)%list,
                         {| at_pc := PRecv; backoff := 2; raw_left := r;
                            frames_left := fr; session_end := e;
                            env := world |})).
      { loop_steps. cbn [ws_loop app]. rewrite !app_nil_r. reflexivity. }
      assert (Hpd : published
                      (log ("Connecting to WebSocket: " ++ ws_url cfg)
                         :: log "WebSocket connected."
                         :: publish_discovery cfg)
                    = published (publish_discovery cfg)) by reflexivity.
      destruct e as [err| | |m err].
      * destruct (IH {| at_pc := PTop; backoff := Z.min (b1 * 2) 60;
                        raw_left := r1; frames_left := [];
                        session_end := Failed err; env := world |}
                    eq_refl eq_refl)
          as (k & t & c' & Hrun & Hstop & Hp).
        exists (5 + k1 + (4 + k))%nat; do 2 eexists.
        split; [|split; [exact Hstop|]].
        -- eapply run_compose;
             [ eapply run_compose; [exact Hhead|exact Hrun1]
             | eapply run_compose; [reflexivity|exact Hrun] ].
        -- rewrite !published_app, Hpd, Hp1, Hp. cbn [expected_published].
           cbn [published log List.app].
           rewrite ?app_nil_r, <- ?app_assoc. reflexivity.
      * destruct (IH {| at_pc := PTop; backoff := b1; raw_left := r1;
                        frames_left := []; session_end := Closed;
                        env := world |}
                    eq_refl eq_refl)
          as (k & t & c' & Hrun & Hstop & Hp).
        exists (5 + k1 + (1 + k))%nat; do 2 eexists.
        split; [|split; [exact Hstop|]].
        -- eapply run_compose;
             [ eapply run_compose; [exact Hhead|exact Hrun1]
             | eapply run_compose; [reflexivity|exact Hrun] ].
        -- rewrite !published_app, Hpd, Hp1, Hp. cbn [expected_published].
           cbn [published log List.app].
           rewrite ?app_nil_r, <- ?app_assoc. reflexivity.
      * exists (5 + k1)%nat; do 2 eexists.
        split; [|split].
        -- eapply run_compose; [exact Hhead|exact Hrun1].
        -- reflexivity.
        -- rewrite !published_app, Hpd, Hp1. cbn [expected_published].
           rewrite app_nil_r. reflexivity.
      * (* [json.loads] raises on the next frame: the loop ends *)
        exists (5 + k1 + 2)%nat; do 2 eexists.
        split; [|split].
        -- eapply run_compose;
             [ eapply run_compose; [exact Hhead|exact Hrun1] | reflexivity ].
        -- reflexivity.
        -- rewrite !published_app, Hpd, Hp1. cbn [expected_published].
           cbn [published List.app]. rewrite ?app_nil_r. reflexivity.
Qed.

(** X15: what the bridge publishes over a series of connection attempts:
    nothing for a refused connect; for every opened session the discovery
    messages, the same each time, then the state messages of its frames
    in the order of arrival, a frame that [json.loads] rejects with
    [JSONDecodeError] adding nothing; a frame on which [json.loads] raises
    another exception ends the loop, which publishes nothing more, neither
    for that session nor for the attempts that would follow. *)
Theorem published_trace (world : list attempt) :
  (exists (k : nat) (t : list effect) (c : conf),
      ws_loop cfg k (init cfg world) = (t, c) /\ step cfg c = None
      /\ published t = expected_published cfg world)
  /\ (forall (fr : list string) (msg err : string) (w : list attempt),
        expected_published cfg (Opened fr (Raising msg err) :: w)
        = (published (publish_discovery cfg)
             ++ flat_map (frame_messages cfg) fr)%list)
  /\ (forall (fr : list string) (err : string) (w : list attempt),
        expected_published cfg (Opened fr (Failed err) :: w)
        = (published (publish_discovery cfg)
             ++ flat_map (frame_messages cfg) fr
             ++ expected_published cfg w)%list)
  /\ (forall (err : string) (w : list attempt),
        expected_published cfg (Refused err :: w) = expected_published cfg w).
Proof.
  split; [apply run_world_published; reflexivity|].
  split; [|split; reflexivity].
  intros fr msg err w. cbn [expected_published].
  rewrite app_nil_r. reflexivity.
Qed.

End SupervisorTraces.

Section SupervisorInvariants.

Context {rt : Runtime}.

Variable cfg : config.

(** What every statement keeps, the whole loop keeps. *)
Lemma ws_loop_invariant (Inv : conf -> Prop) (Good : list effect -> Prop) :
  Good [] ->
  (forall a b : list effect, Good a -> Good b -> Good (a ++ b)%list) ->
  (forall (c c' : conf) (es : list effect),
      Inv c -> step cfg c = Some (es, c') -> Good es /\ Inv c') ->
  forall (k : nat) (c : conf),
    Inv c -> Good (fst (ws_loop cfg k c)) /\ Inv (snd (ws_loop cfg k c)).
Proof.
  intros Hnil Happ Hstep.
  induction k as [|k IH]; intros c Hc; [split; [exact Hnil|exact Hc]|].
  rewrite run_unfold.
  destruct (step cfg c) as [[es c1]|] eqn:E; [|split; [exact Hnil|exact Hc]].
  destruct (Hstep c c1 es Hc E) as [Hes Hc1].
  destruct (IH c1 Hc1) as [Ht Hc2].
  destruct (ws_loop cfg k c1) as [t c2]. cbn [fst snd] in *.
  split; [apply Happ; assumption | exact Hc2].
Qed.

Lemma raw_lines_app (t1 t2 : list effect) :
  raw_lines (t1 ++ t2) = (raw_lines t1 + raw_lines t2)%nat.
Proof.
  induction t1 as [|[l|m|n] t1 IH]; simpl; rewrite ?IH; lia.
Qed.

Lemma raw_lines_discovery : raw_lines (publish_discovery cfg) = 0%nat.
Proof.
  unfold publish_discovery.
  induction (mappings cfg) as [|s maps IH]; [reflexivity|].
  cbn [flat_map]. rewrite raw_lines_app, IH. reflexivity.
Qed.

Lemma step_quota (c c' : conf) (es : list effect) :
  quota_pending_ok c -> step cfg c = Some (es, c') ->
  quota_pending_ok c'
  /\ Z.of_nat (raw_lines es) + quota_left c' = quota_left c.
Proof.
  destruct c as [p b r fl se w].
  unfold quota_pending_ok, quota_left, step.
  cbn [at_pc raw_left env frames_left session_end backoff].
  intros Hok H.
  destruct p as [ | | | | | |msg|msg err|msg| |data|data|data|items|err| | |err].
  - injection H as <- <-. cbn. split; [exact I|lia].
  - destruct w as [|[err|fr e] w]; [discriminate|..];
      injection H as <- <-; cbn; split; try exact I; lia.
  - injection H as <- <-. cbn. split; [exact I|lia].
  - injection H as <- <-. cbn [goto at_pc raw_left].
    rewrite raw_lines_discovery. split; [exact I|lia].
  - injection H as <- <-. cbn. split; [exact I|lia].
  - destruct fl as [|m fl].
    + destruct se as [err| | |m err]; try discriminate; injection H as <- <-; cbn;
        split; try exact I; lia.
    + injection H as <- <-; cbn; split; try exact I; lia.
  - destruct (json_loads msg); injection H as <- <-; cbn;
      split; try exact I; lia.
  - injection H as <- <-. cbn. split; [exact I|lia].
  - destruct (0 <? r) eqn:Hr; injection H as <- <-;
      cbn [goto at_pc raw_left].
    + apply Z.ltb_lt in Hr. split; [exact Hr|].
      change (Z.of_nat 1 + (Z.max 0 r - 1) = Z.max 0 r). lia.
    + split; [exact I|]. cbn. lia.
  - injection H as <- <-. cbn. split; [exact I|lia].
  - destruct (0 <? r) eqn:Hr; injection H as <- <-;
      cbn [goto at_pc raw_left].
    + apply Z.ltb_lt in Hr. split; [exact Hr|].
      change (Z.of_nat 1 + (Z.max 0 r - 1) = Z.max 0 r). lia.
    + split; [exact I|]. cbn. lia.
  - injection H as <- <-. cbn. split; [exact I|lia].
  - injection H as <- <-. cbn. split; [exact I|lia].
  - destruct items as [|[uid v] items]; injection H as <- <-; cbn;
      split; try exact I; lia.
  - injection H as <- <-. cbn [goto at_pc raw_left backoff].
    split; [exact I|].
    change (Z.of_nat 0 + Z.max 0 r = Z.max 0 r). lia.
  - injection H as <- <-. cbn. split; [exact I|lia].
  - injection H as <- <-. cbn. split; [exact I|lia].
  - discriminate H.
Qed.

Lemma run_quota (k : nat) (c : conf) :
  quota_pending_ok c ->
  quota_pending_ok (snd (ws_loop cfg k c))
  /\ Z.of_nat (raw_lines (fst (ws_loop cfg k c)))
     + quota_left (snd (ws_loop cfg k c))
     = quota_left c.
Proof.
  revert c; induction k as [|k IH]; intros c Hc.
  - cbn [ws_loop fst snd raw_lines]. split; [exact Hc|lia].
  - rewrite run_unfold.
    destruct (step cfg c) as [[es c1]|] eqn:E.
    + destruct (step_quota c c1 es Hc E) as [Hc1 Hq1].
      destruct (IH c1 Hc1) as [Hc2 Hq2].
      destruct (ws_loop cfg k c1) as [t c2]. cbn [fst snd] in *.
      split; [exact Hc2|]. rewrite raw_lines_app. lia.
    + cbn [fst snd raw_lines]. split; [exact Hc|lia].
Qed.

Lemma quota_left_nonneg (c : conf) : quota_pending_ok c -> 0 <= quota_left c.
Proof.
  unfold quota_pending_ok, quota_left. destruct (at_pc c); lia.
Qed.

(** X16: however long the loop runs, it prints at most
    [raw_frames_limit] raw-frame lines in all, across reconnects, and none
    when [log_raw_frames] is off or the limit is not positive. *)
Theorem raw_lines_within_quota (world : list attempt) (k : nat) :
  Z.of_nat (raw_lines (fst (ws_loop cfg k (init cfg world))))
  <= (if log_raw_frames cfg then Z.max 0 (raw_frames_limit cfg) else 0).
Proof.
  destruct (run_quota k (init cfg world) I) as [Hok Hq].
  pose proof (quota_left_nonneg _ Hok) as Hnn.
  assert (Hinit : quota_left (init cfg world)
                  = if log_raw_frames cfg
                    then Z.max 0 (raw_frames_limit cfg) else 0).
  { unfold quota_left, init. cbn [at_pc raw_left].
    destruct (log_raw_frames cfg); reflexivity. }
  rewrite <- Hinit. lia.
Qed.

Lemma step_backoff (c c' : conf) (es : list effect) :
  In (backoff c) [2; 4; 8; 16; 32; 60] -> step cfg c = Some (es, c') ->
  Forall (fun n => In n [2; 4; 8; 16; 32; 60]) (sleeps es)
  /\ In (backoff c') [2; 4; 8; 16; 32; 60].
Proof.
  destruct c as [p b r fl se w]. unfold step.
  cbn [at_pc raw_left env frames_left session_end backoff].
  intros Hb H.
  destruct p as [ | | | | | |msg|msg err|msg| |data|data|data|items|err| | |err];
    try (injection H as <- <-; (split; [exact (Forall_nil _)|exact Hb])).
  - destruct w as [|[err|fr e] w]; [discriminate|..];
      injection H as <- <-; (split; [exact (Forall_nil _)|exact Hb]).
  - injection H as <- <-. rewrite sleeps_discovery.
    split; [exact (Forall_nil _)|exact Hb].
  - injection H as <- <-. split; [exact (Forall_nil _)|]. left; reflexivity.
  - destruct fl as [|m fl].
    + destruct se as [err| | |m err]; try discriminate; injection H as <- <-;
        (split; [exact (Forall_nil _)|exact Hb]).
    + injection H as <- <-; (split; [exact (Forall_nil _)|exact Hb]).
  - destruct (json_loads msg); injection H as <- <-;
      (split; [exact (Forall_nil _)|exact Hb]).
  - destruct (0 <? r); injection H as <- <-;
      (split; [exact (Forall_nil _)|exact Hb]).
  - destruct (0 <? r); injection H as <- <-;
      (split; [exact (Forall_nil _)|exact Hb]).
  - destruct items as [|[uid v] items]; injection H as <- <-;
      (split; [exact (Forall_nil _)|exact Hb]).
  - injection H as <- <-. split; [|exact Hb].
    exact (Forall_cons (P := fun n => In n [2; 4; 8; 16; 32; 60]) b Hb
             (Forall_nil _)).
  - injection H as <- <-. split; [exact (Forall_nil _)|].
    cbn [goto set_backoff backoff at_pc].
    cbn [In] in Hb.
    destruct Hb as [<-|[<-|[<-|[<-|[<-|[<-|[]]]]]]]; cbn; auto 10.
  - discriminate H.
Qed.

(** X18: however long the loop runs, every sleep lasts 2, 4, 8, 16, 32 or
    60. *)
Theorem sleeps_from_ladder (world : list attempt) (k : nat) :
  Forall (fun n => In n [2; 4; 8; 16; 32; 60])
    (sleeps (fst (ws_loop cfg k (init cfg world)))).
Proof.
  refine (proj1 (ws_loop_invariant
                   (fun c => In (backoff c) [2; 4; 8; 16; 32; 60])
                   (fun t => Forall (fun n => In n [2; 4; 8; 16; 32; 60])
                               (sleeps t))
                   _ _ _ k (init cfg world) _)).
  - exact (Forall_nil _).
  - intros a b Ha Hb. rewrite sleeps_app. apply Forall_app; split; assumption.
  - intros c c' es Hc Hs. exact (step_backoff c c' es Hc Hs).
  - left; reflexivity.
Qed.

Lemma discovery_configured :
  Forall (configured_message cfg) (published (publish_discovery cfg)).
Proof.
  rewrite published_discovery. apply Forall_forall.
  intros m Hm. apply in_map_iff in Hm. destruct Hm as (s & <- & Hs).
  split; [reflexivity|]. left. split; [reflexivity|].
  exists s. split; [exact Hs|reflexivity].
Qed.

Lemma step_configured (c c' : conf) (es : list effect) :
  items_configured cfg c -> step cfg c = Some (es, c') ->
  Forall (configured_message cfg) (published es) /\ items_configured cfg c'.
Proof.
  destruct c as [p b r fl se w]. unfold items_configured, step.
  cbn [at_pc raw_left env frames_left session_end backoff].
  intros Hinv H.
  destruct p as [ | | | | | |msg|msg err|msg| |data|data|data|items|err| | |err];
    try (injection H as <- <-; (split; [exact (Forall_nil _)|exact I])).
  - destruct w as [|[err|fr e] w]; [discriminate|..];
      injection H as <- <-; (split; [exact (Forall_nil _)|exact I]).
  - injection H as <- <-. split; [exact discovery_configured|exact I].
  - destruct fl as [|m fl].
    + destruct se as [err| | |m err]; try discriminate; injection H as <- <-;
        (split; [exact (Forall_nil _)|exact I]).
    + injection H as <- <-; (split; [exact (Forall_nil _)|exact I]).
  - destruct (json_loads msg); injection H as <- <-;
      (split; [exact (Forall_nil _)|exact I]).
  - destruct (0 <? r); injection H as <- <-;
      (split; [exact (Forall_nil _)|exact I]).
  - destruct (0 <? r); injection H as <- <-;
      (split; [exact (Forall_nil _)|exact I]).
  - injection H as <- <-. split; [exact (Forall_nil _)|].
    cbn [goto at_pc]. intros k Hk.
    destruct (extract_fold_keys data (mappings cfg) []) as [_ Hkeys];
      [constructor|].
    apply Hkeys in Hk. destruct Hk as [[]|Hk]. exact Hk.
  - destruct items as [|[uid v] items]; injection H as <- <-.
    + split; [exact (Forall_nil _)|exact I].
    + split.
      * cbn [published publish_state]. apply Forall_cons; [|apply Forall_nil].
        assert (Hin : In uid (map unique_id (mappings cfg)))
          by (apply Hinv; left; reflexivity).
        apply in_map_iff in Hin. destruct Hin as (s & Hid & Hs).
        split; [reflexivity|]. right. split; [reflexivity|].
        exists s. split; [exact Hs|]. cbn [topic]. rewrite Hid. reflexivity.
      * cbn [goto at_pc]. intros k Hk. apply Hinv. right; exact Hk.
  - discriminate H.
Qed.

(** X19: however long the loop runs, every message it publishes is
    retained and is either a discovery message (QoS 1) on the discovery
    topic of a configured mapping or a state message (QoS 0) on the state
    topic of a configured mapping. *)
Theorem only_configured_messages (world : list attempt) (k : nat) :
  Forall (configured_message cfg)
    (published (fst (ws_loop cfg k (init cfg world)))).
Proof.
  refine (proj1 (ws_loop_invariant (items_configured cfg)
                   (fun t => Forall (configured_message cfg) (published t))
                   _ _ _ k (init cfg world) _)).
  - exact (Forall_nil _).
  - intros a b Ha Hb. rewrite published_app.
    apply Forall_app; split; assumption.
  - intros c c' es Hc Hs. exact (step_configured c c' es Hc Hs).
  - exact I.
Qed.

End SupervisorInvariants.

Section SupervisorFrames.

Context {rt : Runtime}.

Variable cfg : config.

Ltac frame_steps :=
  repeat (rewrite run_unfold;
          cbn [step at_pc frames_left env goto set_session raw_left];
          repeat match goal with
            | H : json_loads _ = _ |- _ => rewrite H
            | H : (0 <? _) = _ |- _ => rewrite H
            end).

(** X14: with pairwise distinct identifiers, a frame that decodes gives
    one state message per mapping, in the order of the mappings; a
    mapping whose path has no match gets the empty payload on its state
    topic. *)
Theorem frame_state_per_mapping (c : conf) (msg : string) (fr : list string)
  (data : pyval) :
  at_pc c = PRecv -> frames_left c = msg :: fr -> json_loads msg = Some data ->
  NoDup (map unique_id (mappings cfg)) ->
  exists (k : nat) (t : list effect) (c' : conf),
    ws_loop cfg k c = (t, c')
    /\ at_pc c' = PRecv /\ frames_left c' = fr
    /\ published t
       = map (fun s =>
                {| topic := base_topic cfg ++ "/state/" ++ unique_id s;
                   payload := match extract_value data s with
                              | PNone => ""
                              | _ => py_str (extract_value data s)
                              end;
                   qos := 0; retain := true |})
           (mappings cfg)
    /\ forall s : mapping,
         In s (mappings cfg) -> jsonpath_find (jsonpath s) data = [] ->
         In {| topic := base_topic cfg ++ "/state/" ++ unique_id s;
               payload := ""; qos := 0; retain := true |}
           (published t).
Proof.
  intros Hpc Hfr Hl Hnd.
  destruct (run_frame_published cfg c msg fr Hpc Hfr)
    as (k & t & c' & Hrun & Hp & Hpc' & Hfr' & _).
  assert (E : published t
              = map (fun s =>
                       {| topic := base_topic cfg ++ "/state/" ++ unique_id s;
                          payload := match extract_value data s with
                                     | PNone => ""
                                     | _ => py_str (extract_value data s)
                                     end;
                          qos := 0; retain := true |})
                  (mappings cfg)).
  { rewrite Hp. unfold frame_messages. rewrite Hl.
    rewrite published_states. unfold extract_values.
    rewrite extract_fold_in_order by exact Hnd.
    rewrite app_nil_l, map_map. reflexivity. }
  exists k, t, c'. split; [exact Hrun|]. split; [exact Hpc'|].
  split; [exact Hfr'|]. split; [exact E|].
  intros s Hs Hnone. rewrite E. apply in_map_iff.
  exists s. split; [|exact Hs].
  unfold extract_value. rewrite Hnone. reflexivity.
Qed.

Lemma raw_lines_states (items : dict pyval) :
  raw_lines (map (fun kv => publish_state cfg (fst kv) (snd kv)) items)
  = 0%nat.
Proof. induction items as [|[uid v] items IH]; [reflexivity|exact IH]. Qed.

Lemma run_frame_raw (c : conf) (msg : string) (fr : list string) :
  at_pc c = PRecv -> frames_left c = msg :: fr ->
  exists (k : nat) (t : list effect) (c' : conf),
    ws_loop cfg k c = (t, c')
    /\ raw_lines t = (if (0 <? raw_left c)%Z then 1 else 0)%nat
    /\ raw_left c' = (if 0 <? raw_left c then raw_left c - 1 else raw_left c)
    /\ at_pc c' = PRecv /\ frames_left c' = fr
    /\ session_end c' = session_end c.
Proof.
  intros Hpc Hfr.
  destruct c as [p b r fl se w]; cbn in Hpc, Hfr; subst p fl.
  cbn [raw_left].
  destruct (json_loads msg) as [data|] eqn:Hl; destruct (0 <? r) eqn:Hr.
  - exists (5 + S (List.length (extract_values cfg data)))%nat; do 2 eexists.
    split;
      [eapply run_compose; [frame_steps; reflexivity | apply run_publish]|].
    rewrite !raw_lines_app, raw_lines_states. repeat split.
  - exists (4 + S (List.length (extract_values cfg data)))%nat; do 2 eexists.
    split;
      [eapply run_compose; [frame_steps; reflexivity | apply run_publish]|].
    rewrite !raw_lines_app, raw_lines_states. repeat split.
  - exists 4%nat; do 2 eexists. frame_steps. repeat split.
  - exists 3%nat; do 2 eexists. frame_steps. repeat split.
Qed.

(** On a frame on which [json.loads] raises an exception that nothing
    catches, the loop prints nothing and leaves the quota alone, however
    long it is run. *)
Lemma run_raising (c : conf) (msg err : string) (k : nat) :
  at_pc c = PRecv -> frames_left c = [] -> session_end c = Raising msg err ->
  fst (ws_loop cfg k c) = []
  /\ raw_left (snd (ws_loop cfg k c)) = raw_left c
  /\ phase_of (at_pc (snd (ws_loop cfg (2 + k) c))) = Ended.
Proof.
  intros Hpc Hfr Hend.
  destruct c as [p b r fl se w]; cbn in Hpc, Hfr, Hend; subst p fl se.
  split; [|split].
  - do 3 (destruct k as [|k]; [reflexivity|]).
    frame_steps. reflexivity.
  - do 3 (destruct k as [|k]; [reflexivity|]).
    frame_steps. reflexivity.
  - rewrite run_add. cbn [ws_loop step at_pc frames_left session_end goto].
    destruct k as [|k]; [reflexivity|]. frame_steps. reflexivity.
Qed.

(** X17: within a session the raw-frame lines go to the first frames that
    [json.loads] decodes or rejects with [JSONDecodeError], as long as the
    quota lasts: their number is the smaller of the quota and the number
    of these frames, and it is what the quota loses.  A frame on which
    [json.loads] raises another exception comes last: the loop ends on
    it, without a line for it and without a loss of quota. *)
Theorem session_raw_lines (fr : list string) (c : conf) :
  at_pc c = PRecv -> frames_left c = fr ->
  exists (k : nat) (t : list effect) (c' : conf),
    ws_loop cfg k c = (t, c')
    /\ at_pc c' = PRecv /\ frames_left c' = []
    /\ Z.of_nat (raw_lines t)
       = Z.min (Z.max 0 (raw_left c)) (Z.of_nat (List.length fr))
    /\ raw_left c' = raw_left c - Z.of_nat (raw_lines t)
    /\ forall (msg err : string) (k' : nat),
         session_end c = Raising msg err ->
         raw_lines (fst (ws_loop cfg (k + k') c)) = raw_lines t
         /\ raw_left (snd (ws_loop cfg (k + k') c)) = raw_left c'
         /\ phase_of (at_pc (snd (ws_loop cfg (k + (2 + k')) c))) = Ended.
Proof.
  assert (Hmain : forall (fr : list string) (c : conf),
             at_pc c = PRecv -> frames_left c = fr ->
             exists (k : nat) (t : list effect) (c' : conf),
               ws_loop cfg k c = (t, c')
               /\ at_pc c' = PRecv /\ frames_left c' = []
               /\ Z.of_nat (raw_lines t)
                  = Z.min (Z.max 0 (raw_left c)) (Z.of_nat (List.length fr))
               /\ raw_left c' = raw_left c - Z.of_nat (raw_lines t)
               /\ session_end c' = session_end c).
  { clear fr c. intros fr.
    induction fr as [|msg fr IH]; intros c Hpc Hfr.
    - exists 0%nat, [], c. cbn [ws_loop raw_lines List.length].
      repeat split; try assumption; lia.
    - destruct (run_frame_raw c msg fr Hpc Hfr)
        as (k1 & t1 & c1 & Hrun1 & Hn1 & Hr1 & Hpc1 & Hfr1 & He1).
      destruct (IH c1 Hpc1 Hfr1)
        as (k2 & t2 & c2 & Hrun2 & Hpc2 & Hfr2 & Hn2 & Hr2 & He2).
      exists (k1 + k2)%nat, (t1 ++ t2)%list, c2.
      split; [exact (run_compose _ _ _ _ _ _ _ _ Hrun1 Hrun2)|].
      split; [exact Hpc2|]. split; [exact Hfr2|].
      rewrite raw_lines_app, Nat2Z.inj_add, Hn2, Hr2, Hn2, Hn1, Hr1.
      cbn [List.length]. rewrite Nat2Z.inj_succ.
      split; [|split; [|congruence]];
        (destruct (0 <? raw_left c) eqn:Hq;
         [apply Z.ltb_lt in Hq | apply Z.ltb_ge in Hq]; lia). }
  intros Hpc Hfr.
  destruct (Hmain fr c Hpc Hfr)
    as (k & t & c' & Hrun & Hpc' & Hfr' & Hn & Hr & He).
  exists k, t, c'.
  repeat (split; [assumption|]).
  intros msg err k' Hend. rewrite <- He in Hend.
  destruct (run_raising c' msg err k' Hpc' Hfr' Hend) as (Ht & Hq & Hph).
  rewrite !(run_add cfg), Hrun.
  destruct (ws_loop cfg k' c') as [t2 c2] eqn:E2.
  destruct (ws_loop cfg (2 + k') c') as [t3 c3] eqn:E3.
  cbn [fst snd] in *. subst t2.
  rewrite app_nil_r. repeat split; assumption.
Qed.

End SupervisorFrames.

(** * The properties on concrete inputs *)

(** The scenario of the specification: 125 seconds. *)
Example seconds_to_hms_125 :
  @transform_value demo_runtime (PInt 125) "seconds_to_hms" = PStr "00:02:05".
Proof. vm_compute. reflexivity. Qed.

Example seconds_to_hms_100_hours :
  @transform_value demo_runtime (PInt 360000) "seconds_to_hms"
  = PStr "100:00:00".
Proof. vm_compute. reflexivity. Qed.

(** An integer beyond the range of binary64 makes [float] raise and comes
    back as it is. *)
Example seconds_to_hms_out_of_range :
  @transform_value demo_runtime (PInt (2 ^ 1024)) "seconds_to_hms"
  = PInt (2 ^ 1024).
Proof. vm_compute. reflexivity. Qed.

(** [msg[:500]] counts characters, not bytes: three hundred [é], of two
    bytes each, are kept whole, and of five hundred and one the last is
    cut. *)
Example first500_two_byte_characters :
  first500 (copies 300 "é") = copies 300 "é"
  /\ first500 (copies 501 "é") = copies 500 "é"
  /\ String.length (first500 (copies 501 "é")) = 1000%nat
  /\ first500 (copies 501 "a") = copies 500 "a".
Proof. repeat split; vm_compute; reflexivity. Qed.

(** Seven refused connects in a row. *)
Example seven_refusals :
  sleeps (fst (@ws_loop demo_runtime (demo_config []) 36
                 (init (demo_config []) (map Refused (repeat "OSError()" 7)))))
  = [2; 4; 8; 16; 32; 60; 60].
Proof. vm_compute. reflexivity. Qed.

(** One of two mapped fields is in the frame. *)
Example extract_values_demo :
  @extract_values demo_runtime (demo_config demo_two) (PDict [("p", PInt 7)])
  = [("p", PInt 7); ("q", PNone)].
Proof. vm_compute. reflexivity. Qed.

(** Outside the data model: of two mappings with one identifier, the
    later one decides the entry. *)
Example duplicate_identifiers_last_wins :
  @extract_values demo_runtime
    (demo_config [demo_mapping "p" "$.a" None; demo_mapping "p" "$.b" None])
    (PDict [("a", PInt 1)])
  = [("p", PNone)].
Proof. vm_compute. reflexivity. Qed.

(** C1 on one refused connect, a session that fails after a frame, and six
    refused connects. *)
Lemma backoff_policy_witness :
  (exists (k : nat) (t : list effect) (c : conf),
      @ws_loop demo_runtime (demo_config []) k
        (init (demo_config [])
           (Refused "OSError()" :: Opened ["1"] (Failed "OSError()")
              :: map Refused (repeat "OSError()" 6)))
      = (t, c)
      /\ sleeps t = [2; 2; 4; 8; 16; 32; 60; 60])
  /\ (5 <= 6)%nat /\ backoff_seq 6 = 60.
Proof.
  pose proof (@backoff_policy demo_runtime (demo_config [])
                (Refused "OSError()" :: Opened ["1"] (Failed "OSError()")
                   :: map Refused (repeat "OSError()" 6)))
    as [(k & t & c & Hrun & _ & Hs) (_ & _ & _ & Hcap)].
  split; [|split].
  - exists k, t, c. split; [exact Hrun|]. rewrite Hs. reflexivity.
  - apply Nat.leb_le; reflexivity.
  - apply Hcap. apply Nat.leb_le; reflexivity.
Defined.

(** C2 on a frame with two of three mapped fields: the elapsed seconds
    are transformed in the mode of their mapping, the progress has no
    mode and is left as it is, the state is not in the frame. *)
Lemma extract_values_entry_witness :
  In (demo_mapping "elapsed" "$.elapsed" (Some "seconds_to_hms")) demo_three
  /\ In (demo_mapping "progress" "$.progress" None) demo_three
  /\ In (demo_mapping "state" "$.state" (Some "seconds_to_hms")) demo_three
  /\ NoDup (map unique_id demo_three)
  /\ dict_get
       (@extract_values demo_runtime (demo_config demo_three)
          (PDict [("progress", PInt 7); ("elapsed", PInt 125)]))
       "elapsed"
     = Some (PStr "00:02:05")
  /\ dict_get
       (@extract_values demo_runtime (demo_config demo_three)
          (PDict [("progress", PInt 7); ("elapsed", PInt 125)]))
       "progress"
     = Some (PInt 7)
  /\ dict_get
       (@extract_values demo_runtime (demo_config demo_three)
          (PDict [("progress", PInt 7); ("elapsed", PInt 125)]))
       "state"
     = Some PNone.
Proof.
  assert (H1 : In (demo_mapping "elapsed" "$.elapsed" (Some "seconds_to_hms"))
                 demo_three)
    by (left; reflexivity).
  assert (H2 : In (demo_mapping "progress" "$.progress" None) demo_three)
    by (right; left; reflexivity).
  assert (H3 : In (demo_mapping "state" "$.state" (Some "seconds_to_hms"))
                 demo_three)
    by (right; right; left; reflexivity).
  assert (Hnd : NoDup (map unique_id demo_three)).
  { repeat constructor; cbn; intuition discriminate. }
  split; [exact H1|]. split; [exact H2|]. split; [exact H3|].
  split; [exact Hnd|].
  split; [|split].
  - exact (proj2 (@extract_values_entry demo_runtime (demo_config demo_three)
                    (PDict [("progress", PInt 7); ("elapsed", PInt 125)])
                    _ H1)
             Hnd).
  - exact (proj2 (@extract_values_entry demo_runtime (demo_config demo_three)
                    (PDict [("progress", PInt 7); ("elapsed", PInt 125)])
                    _ H2)
             Hnd).
  - exact (proj2 (@extract_values_entry demo_runtime (demo_config demo_three)
                    (PDict [("progress", PInt 7); ("elapsed", PInt 125)])
                    _ H3)
             Hnd).
Defined.


(** C4 on 125 seconds. *)
Lemma seconds_to_hms_exact_range_witness :
  0 <= 125 <= 2 ^ 53
  /\ renders_as_hms
       (@transform_value demo_runtime (PInt 125) "seconds_to_hms") 125.
Proof.
  assert (H : 0 <= 125 <= 2 ^ 53) by (split; apply Z.leb_le; reflexivity).
  split; [exact H|].
  exact (proj1 (@seconds_to_hms_exact_range demo_runtime 125 H)).
Defined.

(** C4 as stated fails on [2^53 + 1], which [float] rounds to [2^53]. *)
Lemma seconds_to_hms_inexact_above_2p53 :
  ~ renders_as_hms
      (@transform_value demo_runtime (PInt 9007199254740993) "seconds_to_hms")
      9007199254740993.
Proof.
  intros (out & H & M & S & Hout & Hparse & Hsum & _).
  assert (E : @transform_value demo_runtime (PInt 9007199254740993)
                "seconds_to_hms" = PStr "2501999792983:36:32")
    by (vm_compute; reflexivity).
  rewrite E in Hout. injection Hout as <-.
  vm_compute in Hparse. injection Hparse as <- <- <-.
  discriminate Hsum.
Qed.

(** C5 as stated fails on a mapping whose unit is the empty string: the
    unit is present and the record leaves it out. *)
Lemma discovery_empty_unit_omitted :
  dict_get
    (to_discovery
       {| name := "Progress"; unique_id := "p"; jsonpath := "$.p";
          transform := None; unit := Some ""; icon := None;
          device_class := None; state_class := None |}
       (demo_config []))
    "unit_of_measurement"
  <> option_map PStr (Some "").
Proof. vm_compute. discriminate. Qed.

(** C6 on the elapsed time [00:02:05], on [None], on the integers -5 and
    7, on [True] and on the floats [42.17] and [100.0]. *)
Lemma publish_state_message_witness :
  @publish_state demo_runtime (demo_config demo_three) "elapsed"
    (PStr "00:02:05")
  = Publish {| topic := "k1max/state/elapsed"; payload := "00:02:05";
               qos := 0; retain := true |}
  /\ @publish_state demo_runtime (demo_config demo_three) "elapsed" PNone
     = Publish {| topic := "k1max/state/elapsed"; payload := "";
                  qos := 0; retain := true |}
  /\ @publish_state demo_runtime (demo_config demo_three) "elapsed"
       (PInt (-5))
     = Publish {| topic := "k1max/state/elapsed"; payload := "-5";
                  qos := 0; retain := true |}
  /\ @publish_state demo_runtime (demo_config demo_three) "elapsed"
       (PBool true)
     = Publish {| topic := "k1max/state/elapsed"; payload := "True";
                  qos := 0; retain := true |}
  /\ @publish_state demo_runtime (demo_config demo_three) "elapsed"
       (PFloat (fdiv (Z2SF 4217) (Z2SF 100)))
     = Publish {| topic := "k1max/state/elapsed"; payload := "42.17";
                  qos := 0; retain := true |}
  /\ @publish_state demo_runtime (demo_config demo_three) "elapsed"
       (PFloat (Z2SF 100))
     = Publish {| topic := "k1max/state/elapsed"; payload := "100.0";
                  qos := 0; retain := true |}
  /\ published
       (fst (@ws_loop demo_runtime (demo_config demo_three) 3
               (goto (PPublish [("elapsed", PStr "00:02:05");
                                ("progress", PInt 7)])
                  (demo_receiving 0 []))))
     = [ {| topic := "k1max/state/elapsed"; payload := "00:02:05"; qos := 0;
            retain := true |};
         {| topic := "k1max/state/progress"; payload := "7"; qos := 0;
            retain := true |} ].
Proof.
  pose proof (@publish_state_message demo_runtime (demo_config demo_three)
                "elapsed" (PStr "00:02:05"))
    as (Hs & Hnone & _ & _ & Hbool & Hfloat & _ & Hloop).
  split; [exact Hs|]. split; [exact Hnone|].
  split.
  { exact (proj1 (@publish_state_message demo_runtime
                    (demo_config demo_three) "elapsed" (PInt (-5)))). }
  split; [exact (Hbool true)|].
  split; [exact (Hfloat (fdiv (Z2SF 4217) (Z2SF 100)))|].
  split; [exact (Hfloat (Z2SF 100))|].
  exact (Hloop (demo_receiving 0 []) [("progress", PInt 7)]).
Defined.

(** C7 as stated fails after a refused connect: the discovery records are
    published with the backoff at 4, the reset comes after them. *)
Lemma discovery_precedes_reset :
  ~ @resets_before_discovery demo_runtime
      (demo_config [demo_mapping "p" "$.p" None])
      [Refused "OSError()"; Opened [] Pending].
Proof.
  intros H.
  specialize (H 8%nat _ _ eq_refl eq_refl).
  discriminate H.
Qed.

(** C7 on a connect that succeeds after two failures. *)
Lemma connect_discovery_then_reset_witness :
  exists c3 c4 : conf,
    @ws_loop demo_runtime (demo_config [demo_mapping "p" "$.p" None]) 3
      {| at_pc := PConnect; backoff := 8; raw_left := 0; frames_left := [];
         session_end := Pending; env := [Opened ["1"] Pending] |}
    = (log "WebSocket connected."
         :: @publish_discovery demo_runtime
              (demo_config [demo_mapping "p" "$.p" None]), c3)
    /\ backoff c3 = 8
    /\ @ws_loop demo_runtime (demo_config [demo_mapping "p" "$.p" None]) 4
         {| at_pc := PConnect; backoff := 8; raw_left := 0; frames_left := [];
            session_end := Pending; env := [Opened ["1"] Pending] |}
       = (log "WebSocket connected."
            :: @publish_discovery demo_runtime
                 (demo_config [demo_mapping "p" "$.p" None]), c4)
    /\ backoff c4 = 2 /\ frames_left c4 = ["1"].
Proof.
  destruct (@connect_discovery_then_reset demo_runtime
              (demo_config [demo_mapping "p" "$.p" None])
              {| at_pc := PConnect; backoff := 8; raw_left := 0;
                 frames_left := []; session_end := Pending;
                 env := [Opened ["1"] Pending] |}
              ["1"] Pending [] eq_refl eq_refl)
    as (c3 & c4 & H3 & _ & Hb3 & _ & H4 & _ & Hb4 & Hf4 & _).
  exists c3, c4. repeat split; assumption.
Defined.

(** C8 on a string that is no number. *)
Lemma transform_lenient_fallback_witness :
  @py_float demo_runtime (PStr "idle") = Raise ValueError
  /\ @transform_value demo_runtime (PStr "idle") "seconds_to_hms" = PStr "idle"
  /\ @transform_value demo_runtime (PStr "idle") "percent_0_1_to_0_100"
     = PStr "idle".
Proof.
  split; [reflexivity|]. split.
  - exact (proj1 (@transform_lenient_fallback demo_runtime) (PStr "idle")
             "seconds_to_hms" ValueError eq_refl (or_intror eq_refl)).
  - exact (proj1 (@transform_lenient_fallback demo_runtime) (PStr "idle")
             "percent_0_1_to_0_100" ValueError eq_refl (or_introl eq_refl)).
Defined.

(** C9 on a frame of a thousand opening brackets, with a quota of one
    line and another session to come: the loop ends in two statements and
    prints nothing; the frame [7] before it is served, the session after
    it is not. *)
Lemma undecodable_frame_ends_loop_witness :
  (exists c' : conf,
      @ws_loop demo_runtime (demo_config demo_whole) 2
        {| at_pc := PRecv; backoff := 2; raw_left := 1; frames_left := [];
           session_end := Raising demo_deep_frame demo_recursion_error;
           env := [Opened ["8"] Closed] |}
      = ([], c')
      /\ at_pc c' = PEnded demo_recursion_error
      /\ phase_of (at_pc c') <> Connected
      /\ raw_left c' = 1 /\ env c' = [Opened ["8"] Closed]
      /\ @ws_loop demo_runtime (demo_config demo_whole) 1000
           {| at_pc := PRecv; backoff := 2; raw_left := 1; frames_left := [];
              session_end := Raising demo_deep_frame demo_recursion_error;
              env := [Opened ["8"] Closed] |}
         = ([], c'))
  /\ (exists (k : nat) (t : list effect) (c' : conf),
        @ws_loop demo_runtime (demo_config demo_whole) k
          (init (demo_config demo_whole)
             [ Opened ["7"] (Raising demo_deep_frame demo_recursion_error);
               Opened ["8"] Closed ])
        = (t, c')
        /\ at_pc c' = PEnded demo_recursion_error
        /\ env c' = [Opened ["8"] Closed] /\ sleeps t = []
        /\ @ws_loop demo_runtime (demo_config demo_whole) (k + 1000)
             (init (demo_config demo_whole)
                [ Opened ["7"] (Raising demo_deep_frame demo_recursion_error);
                  Opened ["8"] Closed ])
           = (t, c')).
Proof.
  pose proof (@undecodable_frame_ends_loop demo_runtime
                (demo_config demo_whole) demo_deep_frame demo_recursion_error)
    as [Hframe Hrun].
  split.
  - destruct (Hframe
                {| at_pc := PRecv; backoff := 2; raw_left := 1;
                   frames_left := [];
                   session_end := Raising demo_deep_frame demo_recursion_error;
                   env := [Opened ["8"] Closed] |}
                eq_refl eq_refl eq_refl)
      as (c' & H2 & Hpc & _ & Hph & Hraw & Henv & Hstay).
    exists c'. repeat (split; [assumption|]). exact (Hstay 998%nat).
  - destruct (Hrun ["7"] [Opened ["8"] Closed])
      as (k & t & c' & Hk & Hpc & Henv & Hs & Hstay).
    exists k, t, c'. repeat (split; [assumption|]). exact (Hstay 1000%nat).
Defined.

(** A frame that is no JSON, with a quota of one line. *)
Lemma malformed_frame_skipped_witness :
  @json_loads demo_runtime "{oops" = None
  /\ exists (k : nat) (t : list effect) (c' : conf),
       @ws_loop demo_runtime (demo_config [demo_mapping "p" "$.p" None]) k
         {| at_pc := PRecv; backoff := 2; raw_left := 1;
            frames_left := ["{oops"; "1"]; session_end := Pending; env := [] |}
       = (t, c')
       /\ published t = [] /\ at_pc c' = PRecv /\ frames_left c' = ["1"]
       /\ printed t = ["[k1max-ws-bridge] RAW(nonjson) = {oops"]
       /\ raw_left c' = 0.
Proof.
  split; [reflexivity|].
  destruct (@malformed_frame_skipped demo_runtime
              (demo_config [demo_mapping "p" "$.p" None])
              {| at_pc := PRecv; backoff := 2; raw_left := 1;
                 frames_left := ["{oops"; "1"]; session_end := Pending;
                 env := [] |}
              "{oops" ["1"] eq_refl eq_refl eq_refl)
    as (k & t & c' & Hrun & Hpub & _ & Hpc & Hfr & _ & _ & _ & Hpr & Hraw & _).
  exists k, t, c'. repeat split; assumption.
Defined.

(** C10 on a mode the bridge does not know. *)
Lemma transform_unknown_mode_identity_witness :
  "celsius_to_kelvin" <> "percent_0_1_to_0_100"
  /\ "celsius_to_kelvin" <> "seconds_to_hms"
  /\ @transform_value demo_runtime (PInt 215) "celsius_to_kelvin" = PInt 215.
Proof.
  assert (H1 : "celsius_to_kelvin" <> "percent_0_1_to_0_100") by discriminate.
  assert (H2 : "celsius_to_kelvin" <> "seconds_to_hms") by discriminate.
  split; [exact H1|]. split; [exact H2|].
  exact (@transform_unknown_mode_identity demo_runtime (PInt 215)
           "celsius_to_kelvin" H1 H2).
Defined.

(** * The further properties on concrete inputs *)

(** Negative seconds: the hours carry the sign, by floor division. *)
Example seconds_to_hms_minus_5 :
  @transform_value demo_runtime (PInt (-5)) "seconds_to_hms" = PStr "-1:59:55".
Proof. vm_compute. reflexivity. Qed.

(** X1 on the integer 0. *)
Lemma transform_keeps_presence_witness :
  PInt 0 <> PNone
  /\ @transform_value demo_runtime (PInt 0) "seconds_to_hms" <> PNone.
Proof.
  assert (H : PInt 0 <> PNone) by discriminate.
  split; [exact H|].
  exact (@transform_keeps_presence demo_runtime (PInt 0) "seconds_to_hms" H).
Defined.

(** X2 on a NaN. *)
Lemma seconds_nonfinite_unchanged_witness :
  @py_float demo_runtime (PFloat S754_nan) = Ok S754_nan
  /\ @transform_value demo_runtime (PFloat S754_nan) "seconds_to_hms"
     = PFloat S754_nan.
Proof.
  split; [reflexivity|].
  exact (@seconds_nonfinite_unchanged demo_runtime (PFloat S754_nan) S754_nan
           eq_refl (or_introl eq_refl)).
Defined.

(** X3 on 42, which keeps its scale. *)
Lemma percent_integer_witness :
  - 2 ^ 53 <= 42 <= 2 ^ 53
  /\ @transform_value demo_runtime (PInt 42) "percent_0_1_to_0_100"
     = PFloat (Z2SF 42).
Proof.
  assert (H : - 2 ^ 53 <= 42 <= 2 ^ 53) by (split; apply Z.leb_le; reflexivity).
  split; [exact H|].
  exact (@percent_integer demo_runtime 42 H).
Defined.

(** X4 on -5 seconds. *)
Lemma seconds_to_hms_negative_witness :
  - 2 ^ 53 <= -5 < 0
  /\ exists (H M S : Z) (d : string),
       @transform_value demo_runtime (PInt (-5)) "seconds_to_hms"
       = PStr (String "-" d ++ ":" ++ fmt_02d M ++ ":" ++ fmt_02d S)
       /\ 3600 * H + 60 * M + S = -5.
Proof.
  assert (Hr : - 2 ^ 53 <= -5 < 0)
    by (split; [apply Z.leb_le | apply Z.ltb_lt]; reflexivity).
  split; [exact Hr|].
  destruct (@seconds_to_hms_negative demo_runtime (-5) Hr)
    as (H & M & S & d & Hout & _ & _ & Hsum & _).
  exists H, M, S, d. split; [exact Hout|exact Hsum].
Defined.

(** X5 on 125 seconds. *)
Lemma seconds_to_hms_eight_chars_witness :
  0 <= 125 < 360000
  /\ exists out : string,
       @transform_value demo_runtime (PInt 125) "seconds_to_hms" = PStr out
       /\ String.length out = 8%nat.
Proof.
  assert (Hr : 0 <= 125 < 360000)
    by (split; [apply Z.leb_le | apply Z.ltb_lt]; reflexivity).
  split; [exact Hr|].
  exact (@seconds_to_hms_eight_chars demo_runtime 125 Hr).
Defined.

Lemma demo_two_distinct : NoDup (map unique_id demo_two).
Proof. repeat constructor; cbn; intuition discriminate. Defined.

Lemma demo_whole_distinct : NoDup (map unique_id demo_whole).
Proof. repeat constructor; cbn; intuition discriminate. Defined.

(** X7 on a frame whose fields come in the other order. *)
Lemma extract_values_in_order_witness :
  NoDup (map unique_id (mappings (demo_config demo_two)))
  /\ @extract_values demo_runtime (demo_config demo_two)
       (PDict [("q", PInt 3); ("p", PInt 7)])
     = [("p", PInt 7); ("q", PInt 3)].
Proof.
  split; [exact demo_two_distinct|].
  exact (@extract_values_in_order demo_runtime (demo_config demo_two)
           (PDict [("q", PInt 3); ("p", PInt 7)]) demo_two_distinct).
Defined.

(** X10 on two mappings with one identifier. *)
Lemma topics_injective_witness :
  topic {| topic := "k1max/state/p"; payload := ""; qos := 0; retain := true |}
  = topic {| topic := "k1max/state/p"; payload := "7"; qos := 0;
             retain := true |}
  /\ unique_id (demo_mapping "p" "$.p" None)
     = unique_id (demo_mapping "p" "$" None).
Proof.
  split; [reflexivity|].
  exact (proj1 (proj2 (@topics_injective demo_runtime (demo_config [])
                         (demo_mapping "p" "$.p" None)
                         (demo_mapping "p" "$" None))
                  PNone (PInt 7) _ _ eq_refl eq_refl)
           eq_refl).
Defined.

(** X12 on two headers, one with a number as value. *)
Lemma init_ws_headers_entries_witness :
  NoDup (dict_keys [("Authorization", PStr "token"); ("X-Retry", PInt 3)])
  /\ @init_ws_headers demo_runtime
       (Some [("Authorization", PStr "token"); ("X-Retry", PInt 3)])
     = [("Authorization", "token"); ("X-Retry", "3")].
Proof.
  assert (H : NoDup (dict_keys [("Authorization", PStr "token");
                                ("X-Retry", PInt 3)])).
  { repeat constructor; cbn; intuition discriminate. }
  split; [exact H|].
  exact (proj1 (@init_ws_headers_entries demo_runtime
                  [("Authorization", PStr "token"); ("X-Retry", PInt 3)] H)).
Defined.

(** X13 on the frame [7], the quota used up. *)
Lemma decoded_frame_published_witness :
  @json_loads demo_runtime "7" = Some (PInt 7)
  /\ exists (k : nat) (t : list effect) (c' : conf),
       @ws_loop demo_runtime (demo_config demo_whole) k
         (demo_receiving 0 ["7"; "8"])
       = (t, c')
       /\ published t
          = [ {| topic := "k1max/state/p"; payload := "7"; qos := 0;
                 retain := true |};
              {| topic := "k1max/state/q"; payload := ""; qos := 0;
                 retain := true |} ]
       /\ printed t = [] /\ frames_left c' = ["8"].
Proof.
  split; [reflexivity|].
  destruct (@decoded_frame_published demo_runtime (demo_config demo_whole)
              (demo_receiving 0 ["7"; "8"]) "7" ["8"] (PInt 7)
              eq_refl eq_refl eq_refl)
    as (k & t & c' & Hrun & Hpub & Hpr & _ & _ & Hfr & _).
  exists k, t, c'. repeat split; assumption.
Defined.

(** X14 on the frame [7], in which the path of [q] has no match. *)
Lemma frame_state_per_mapping_witness :
  NoDup (map unique_id (mappings (demo_config demo_whole)))
  /\ exists (k : nat) (t : list effect) (c' : conf),
       @ws_loop demo_runtime (demo_config demo_whole) k
         (demo_receiving 0 ["7"; "8"])
       = (t, c')
       /\ In {| topic := "k1max/state/q"; payload := ""; qos := 0;
                retain := true |}
            (published t).
Proof.
  split; [exact demo_whole_distinct|].
  destruct (@frame_state_per_mapping demo_runtime (demo_config demo_whole)
              (demo_receiving 0 ["7"; "8"]) "7" ["8"] (PInt 7)
              eq_refl eq_refl eq_refl demo_whole_distinct)
    as (k & t & c' & Hrun & _ & _ & _ & Hmiss).
  exists k, t, c'. split; [exact Hrun|].
  exact (Hmiss (demo_mapping "q" "$.q" None) (or_intror (or_introl eq_refl))
           eq_refl).
Defined.

(** X17 on three frames and a quota of two lines. *)
Lemma session_raw_lines_witness :
  exists (k : nat) (t : list effect) (c' : conf),
    @ws_loop demo_runtime (demo_config demo_whole) k
      (demo_receiving 2 ["7"; "{oops"; "8"])
    = (t, c')
    /\ Z.of_nat (raw_lines t) = 2 /\ raw_left c' = 0.
Proof.
  destruct (@session_raw_lines demo_runtime (demo_config demo_whole)
              ["7"; "{oops"; "8"] (demo_receiving 2 ["7"; "{oops"; "8"])
              eq_refl eq_refl)
    as (k & t & c' & Hrun & _ & _ & Hn & Hr & _).
  exists k, t, c'. split; [exact Hrun|].
  split; [exact Hn|]. rewrite Hr, Hn. reflexivity.
Defined.

(** Two frames and a quota of five lines, then a frame of a thousand
    opening brackets: two lines, and the quota stays at three. *)
Example session_raw_lines_raising :
  exists (k : nat) (t : list effect) (c' : conf),
    @ws_loop demo_runtime (demo_config demo_whole) k
      (set_session ["7"; "{oops"]
         (Raising demo_deep_frame demo_recursion_error) []
         (demo_receiving 5 []))
    = (t, c')
    /\ Z.of_nat (raw_lines t) = 2 /\ raw_left c' = 3
    /\ raw_lines
         (fst (@ws_loop demo_runtime (demo_config demo_whole) (k + 10)
                 (set_session ["7"; "{oops"]
                    (Raising demo_deep_frame demo_recursion_error) []
                    (demo_receiving 5 []))))
       = raw_lines t
    /\ raw_left
         (snd (@ws_loop demo_runtime (demo_config demo_whole) (k + 10)
                 (set_session ["7"; "{oops"]
                    (Raising demo_deep_frame demo_recursion_error) []
                    (demo_receiving 5 []))))
       = 3.
Proof.
  exists 12%nat. do 2 eexists.
  split; [vm_compute; reflexivity|].
  repeat split; vm_compute; reflexivity.
Qed.
